(** * Experiment runners of the auditory-EEG challenge code

    A shallow embedding of the two experiment scripts

      - [task1_match_mismatch/experiments/dilated_convolutional_model.py]
      - [task2_regression/experiments/vlaai_mel.py]

    Both are linear drivers: they locate the split files by their names,
    wrap them in datasets, fit or load a model, evaluate it per subject and
    dump the metrics as JSON.  The Python values the scripts handle are
    modelled as the scripts use them: [str] as [string], lists as [list],
    [dict] objects as insertion-ordered association lists living in a heap
    of objects, exceptions as the left summand of a sum, and every call
    into the file system or the training framework as an event of a trace
    whose answer is read from an explicit environment. *)

From stdpp Require Import base decidable option list strings gmap.
From Stdlib Require Import Ascii ZArith Lia.

Open Scope string_scope.
Open Scope list_scope.

(** ** Python strings *)

Module Str.

(** [s.startswith(p)] *)
Definition startswith (s p : string) : bool := String.prefix p s.

(** [s.endswith("/")]-style test for a one-character suffix [c] *)
Fixpoint endswith_char (s : string) (c : ascii) : bool :=
  match s with
  | "" => false
  | String a "" => Ascii.eqb a c
  | String _ s' => endswith_char s' c
  end.

(** [sub in s]: [sub] occurs in [s] as a contiguous substring *)
Fixpoint contains (sub s : string) : bool :=
  String.prefix sub s
  || match s with
     | "" => false
     | String _ s' => contains sub s'
     end.

(** [s[i:]] and [s[:i]] for [0 <= i] *)
Fixpoint drop (i : nat) (s : string) : string :=
  match i, s with
  | S i', String _ s' => drop i' s'
  | _, _ => s
  end.

Fixpoint take (i : nat) (s : string) : string :=
  match i, s with
  | S i', String c s' => String c (take i' s')
  | _, _ => ""
  end.

(** The scan of [s.split(sep)] for a non-empty [sep] (Python raises
    [ValueError] for an empty one; the scripts only split at ["_-_"] and
    at ["."]).  The text is read left to right; [skip] counts the
    characters of a separator that was recognised and is still being
    consumed.  The result is the token in progress and the tokens after
    it. *)
Fixpoint split_scan (sep : string) (skip : nat) (s : string)
  : string * list string :=
  match s with
  | "" => ("", [])
  | String c s' =>
      match skip with
      | S k => split_scan sep k s'
      | O =>
          if String.prefix sep s
          then ("", let '(t, ts) := split_scan sep (String.length sep - 1) s'
                    in t :: ts)
          else let '(t, ts) := split_scan sep 0 s' in (String c t, ts)
      end
  end.

(** [s.split(sep)] *)
Definition split (sep s : string) : list string :=
  let '(t, ts) := split_scan sep 0 s in t :: ts.

(** [sep.join(parts)] *)
Fixpoint join (sep : string) (parts : list string) : string :=
  match parts with
  | [] => ""
  | [p] => p
  | p :: ps => p +:+ sep +:+ join sep ps
  end.

(** [s.rstrip("/")] *)
Fixpoint rstrip_slash (s : string) : string :=
  match s with
  | "" => ""
  | String c s' =>
      match rstrip_slash s' with
      | "" => if Ascii.eqb c "/" then "" else String c ""
      | r => String c r
      end
  end.

(** [s.rfind("/") + 1]: the index just after the last slash, [0] when
    there is none *)
Fixpoint rfind_slash_succ (s : string) : nat :=
  match s with
  | "" => 0
  | String c s' =>
      match rfind_slash_succ s' with
      | S i => S (S i)
      | O => if Ascii.eqb c "/" then 1 else 0
      end
  end.

End Str.

(** ** [os.path] on POSIX *)

Module os_path.

(** [os.path.basename(p)]: [i = p.rfind('/') + 1; return p[i:]] *)
Definition basename (p : string) : string :=
  Str.drop (Str.rfind_slash_succ p) p.

(** [os.path.dirname(p)]: the head [p[:i]], with its trailing slashes
    removed unless it consists of slashes only *)
Definition dirname (p : string) : string :=
  let head := Str.take (Str.rfind_slash_succ p) p in
  match Str.rstrip_slash head with
  | "" => head
  | stripped => stripped
  end.

(** One step of [os.path.join]: an absolute component restarts the path *)
Definition join2 (path b : string) : string :=
  if Str.startswith b "/" then b
  else if (String.eqb path "" || Str.endswith_char path "/")%bool
       then path +:+ b
       else path +:+ "/" +:+ b.

(** [os.path.join(a, *p)] *)
Definition join (a : string) (p : list string) : string :=
  fold_left join2 p a.

End os_path.

(** ** [glob.glob] for a pattern whose directory part is literal *)

Module Glob.

(** [fnmatch] on POSIX for patterns built from literal characters, [*]
    and [?] (the scripts' patterns hold no bracket expression) *)
Fixpoint fnmatch (pat name : string) : bool :=
  match pat with
  | "" => match name with "" => true | _ => false end
  | String p pat' =>
      if Ascii.eqb p "*" then
        (fix star (n : string) : bool :=
           fnmatch pat' n
           || match n with
              | "" => false
              | String _ n' => star n'
              end) name
      else
        match name with
        | "" => false
        | String c name' =>
            (Ascii.eqb p "?" || Ascii.eqb p c) && fnmatch pat' name'
        end
  end.

(** [glob._ishidden] *)
Definition ishidden (name : string) : bool := Str.startswith name ".".

(** [glob._glob1]: the entries of a directory that match the pattern;
    hidden entries only count when the pattern itself is hidden *)
Definition glob1 (entries : list string) (pattern : string) : list string :=
  let names :=
    if ishidden pattern then entries
    else List.filter (fun x => negb (ishidden x)) entries in
  List.filter (fnmatch pattern) names.

(** [glob.glob(pathname)]: the pattern is split in a directory and a
    name pattern, the directory is listed ([listdir], which answers the
    empty list for a directory that cannot be read) and the matching
    names are joined to the directory again. *)
Definition glob (listdir : string -> list string) (pathname : string)
  : list string :=
  let dirname := os_path.dirname pathname in
  let pattern := os_path.basename pathname in
  map (os_path.join2 dirname) (glob1 (listdir dirname) pattern).

End Glob.

(** ** The naming convention [<split>_-_<subject>_-_<feature>.<ext>] *)

(** [os.path.basename(x).split("_-_")[-1].split(".")[0]] *)
Definition feature_of (x : string) : string :=
  hd "" (Str.split "." (List.last (Str.split "_-_" (os_path.basename x)) "")).

(** [os.path.basename(x).split("_-_")[1]], [None] for the [IndexError] of
    a name with a single token *)
Definition subject_of (x : string) : option string :=
  Str.split "_-_" (os_path.basename x) !! 1%nat.

(** [[x for x in candidates if feature_of(x) in features]] *)
Definition select_features (features candidates : list string) : list string :=
  List.filter (fun x => bool_decide (feature_of x ∈ features)) candidates.

(** [[f for f in test_files if sub in os.path.basename(f)]] *)
Definition files_of_subject (test_files : list string) (sub : string)
  : list string :=
  List.filter (fun f => Str.contains sub (os_path.basename f)) test_files.


(** ** Python values *)

(** An exception, named by its class or message *)
Abbreviation exn := string (only parsing).

(** A Python [float]: the scripts only carry the numbers the framework
    hands them, so a float is kept as its 64-bit pattern and never
    computed on. *)
Abbreviation pyfloat := Z (only parsing).

(** The address of a [dict] object *)
Abbreviation loc := nat (only parsing).

(** The data generators of [util.dataset_generator] *)
Inductive Generator : Type :=
| MatchMismatchDataGenerator (files : list string) (window_length spacing : Z)
| DataGenerator (files : list string) (window_length : Z).

(** A [tf.data.Dataset] made by [create_tf_dataset], identified by the
    arguments of the call *)
Record Dataset : Type := create_tf_dataset {
  ds_generator : Generator;
  ds_window_length : Z;
  ds_batch_equalizer : bool;   (* [default_batch_equalizer_fn] or [None] *)
  ds_hop_length : Z;
  ds_batch_size : Z;
  ds_feature_dims : option (Z * Z)
}.

#[warnings="-register-all"]
Inductive pyval : Type :=
| VFloat (x : pyfloat)
| VList (items : list pyval)
| VDict (l : loc)
| VDataset (d : Dataset).

(** A [dict] with [str] keys, in insertion order *)
Abbreviation pydict := (list (string * pyval)) (only parsing).

Module Dict.

(** [d.get(k)] *)
Fixpoint get (d : pydict) (k : string) : option pyval :=
  match d with
  | [] => None
  | (k', v) :: d' => if String.eqb k' k then Some v else get d' k
  end.

(** [d[k] = v]: an existing key keeps its place, a new one goes last *)
Fixpoint set (d : pydict) (k : string) (v : pyval) : pydict :=
  match d with
  | [] => [(k, v)]
  | (k', v') :: d' =>
      if String.eqb k' k then (k', v) :: d' else (k', v') :: set d' k v
  end.

(** [list(d.keys())] *)
Definition keys (d : pydict) : list string := map fst d.

(** [d.update(pairs)]: the pairs are inserted from left to right *)
Definition update (d : pydict) (pairs : list (string * pyval)) : pydict :=
  fold_left (fun d kv => set d (fst kv) (snd kv)) pairs d.

(** [dict(pairs)] *)
Definition of_pairs (pairs : list (string * pyval)) : pydict :=
  update [] pairs.

End Dict.

(** [zip(a, b)] stops at the end of the shorter list *)
Fixpoint zip {A B : Type} (a : list A) (b : list B) : list (A * B) :=
  match a, b with
  | x :: a', y :: b' => (x, y) :: zip a' b'
  | _, _ => []
  end.

(** ** numpy arrays: a shape and the elements in row-major order *)

Record ndarray : Type := mk_ndarray {
  nd_shape : list nat;
  nd_data : list pyfloat
}.

Module np.

Definition size (shape : list nat) : nat := fold_right Nat.mul 1 shape.

(** [np.squeeze(a)]: the axes of length one are removed *)
Definition squeeze (a : ndarray) : ndarray :=
  {| nd_shape := List.filter (fun n => negb (Nat.eqb n 1)) (nd_shape a);
     nd_data := nd_data a |}.

(** [np.mean(a, axis=0)]; [avg] is the floating-point average of a
    list of numbers.  An array without axes has no axis 0. *)
Definition mean_axis0 (avg : list pyfloat -> pyfloat) (a : ndarray)
  : exn + ndarray :=
  match nd_shape a with
  | [] => inl "AxisError: axis 0 is out of bounds for array of dimension 0"
  | n :: rest =>
      let stride := size rest in
      inr {| nd_shape := rest;
             nd_data :=
               map (fun j =>
                      avg (omap (fun i => nd_data a !! (i * stride + j)%nat)
                                (seq 0 n)))
                   (seq 0 stride) |}
  end.

(** [a.tolist()]: a number for an array without axes, nested lists
    otherwise *)
Fixpoint tolist_from (shape : list nat) (data : list pyfloat) : pyval :=
  match shape with
  | [] => VFloat (hd 0%Z data)
  | n :: rest =>
      let stride := size rest in
      VList (map (fun i => tolist_from rest
                             (take stride (drop (i * stride) data)))
                 (seq 0 n))
  end.

Definition tolist (a : ndarray) : pyval :=
  tolist_from (nd_shape a) (nd_data a).

End np.

(** ** The model and the world around the scripts *)

(** A compiled [tf.keras.Model], as far as the scripts look at it *)
Record Model : Type := {
(** [model.metrics_names] *)
  metrics_names : list string;
(** [model.evaluate(ds, verbose=2)] *)
  evaluate : Dataset -> exn + list pyfloat;
(** [pearson_tf_non_averaged(labels, model.predict(eeg))] over the
      concatenated batches of a dataset *)
  predict_correlations : Dataset -> exn + ndarray
}.

Record Env : Type := {
(** [sys.argv[1:]] *)
  env_argv : list string;
(** [__file__] *)
  env_file : string;
(** [os.path.abspath] *)
  env_abspath : string -> string;
(** the JSON config file at a path: [load_config], [json.load] *)
  env_config : string -> exn + gmap string string;
(** the names in a directory, [[]] when it cannot be read *)
  env_listdir : string -> list string;
(** [os.makedirs(path, exist_ok=True)] *)
  env_makedirs : string -> option exn;
(** [dilation_model(...)], [vlaai()] followed by [compile] *)
  env_build_model : Model;
(** [tf.keras.models.load_model(path)] *)
  env_load_model : string -> exn + Model;
(** [model.load_weights(path)] *)
  env_load_weights : Model -> string -> exn + Model;
(** [model.fit(train, validation_data=val, ...)]: the fitted model *)
  env_fit : Model -> Dataset -> Dataset -> exn + Model;
(** [open(path, "w")] *)
  env_open_w : string -> option exn;
(** the averaging of [np.mean] *)
  env_avg : list pyfloat -> pyfloat;
(** [float.__repr__] and the quoting of a [str] by the JSON encoder *)
  env_float_repr : pyfloat -> string;
  env_json_str : string -> string
}.

(** What a run does to the world outside the interpreter *)
Inductive event : Type :=
| EvEnableLogging
| EvLog (message : string)
| EvReadConfig (path : string)
| EvMakedirs (path : string)
| EvGlob (pathname : string)
| EvBuildModel
| EvLoadModel (path : string)
| EvCreateDataset (ds : Dataset)
| EvFit (train val : Dataset) (checkpoint csv_log : string)
| EvPredict (ds : Dataset)
| EvEvaluate (ds : Dataset)
| EvOpenWrite (path : string)
| EvWrite (path text : string).


(** ** The interpreter state and the monad of runs *)

Record State : Type := mk_state {
  heap : list pydict;
  trace : list event
}.

Definition M (A : Type) : Type := State -> (exn + A) * State.

Global Instance M_ret : MRet M := fun A x st => (inr x, st).

Global Instance M_bind : MBind M := fun A B f m st =>
  match m st with
  | (inr a, st') => f a st'
  | (inl e, st') => (inl e, st')
  end.

Definition raise {A : Type} (e : exn) : M A := fun st => (inl e, st).

Definition lift {A : Type} (r : exn + A) : M A := fun st => (r, st).

Definition emit (ev : event) : M unit := fun st =>
  (inr tt, {| heap := heap st; trace := trace st ++ [ev] |}).

(** [for x in xs: body(x)] *)
Fixpoint for_each {A : Type} (xs : list A) (body : A -> M unit) : M unit :=
  match xs with
  | [] => mret tt
  | x :: xs' => body x ;; for_each xs' body
  end.

(** [{}] and [dict(pairs)]: a new object *)
Definition new_dict (d : pydict) : M loc := fun st =>
  (inr (length (heap st)), {| heap := heap st ++ [d]; trace := trace st |}).

(** The object behind a reference.  Every reference a run holds comes
    from [new_dict] or from the caller, so the error case stands for a
    caller that passes an address with no object. *)
Definition deref (l : loc) : M pydict := fun st =>
  match heap st !! l with
  | Some d => (inr d, st)
  | None => (inl "ReferenceError", st)
  end.

(** [list(d.items())] *)
Definition dict_items (l : loc) : M (list (string * pyval)) := deref l.

(** [d[k]] *)
Definition dict_getitem (l : loc) (k : string) : M pyval :=
  d ← deref l;
  match Dict.get d k with
  | Some v => mret v
  | None => raise "KeyError"
  end.

(** The object at an address is replaced by its updated state *)
Definition store (l : loc) (d : pydict) : M unit := fun st =>
  (inr tt, {| heap := <[l := d]> (heap st); trace := trace st |}).

(** [d[k] = v] *)
Definition dict_setitem (l : loc) (k : string) (v : pyval) : M unit :=
  d ← deref l; store l (Dict.set d k v).

(** A value used as a dataset *)
Definition as_dataset (v : pyval) : M Dataset :=
  match v with
  | VDataset ds => mret ds
  | _ => raise "TypeError"
  end.

(** A value used as a [dict] *)
Definition as_dict (v : pyval) : M loc :=
  match v with
  | VDict l => mret l
  | _ => raise "TypeError"
  end.

(** [logging.info(message)] *)
Definition logging_info (message : string) : M unit := emit (EvLog message).

(** [model.evaluate(ds, verbose=2)] *)
Definition model_evaluate (model : Model) (ds : Dataset) : M (list pyfloat) :=
  emit (EvEvaluate ds) ;; lift (evaluate model ds).

(** ** JSON documents and [json.dump] *)

#[warnings="-register-all"]
Inductive json : Type :=
| JNum (x : pyfloat)
| JArr (items : list json)
| JObj (members : list (string * json)).

(** The first exception of a list of results, or all the values *)
Fixpoint sequence {A : Type} (rs : list (exn + A)) : exn + list A :=
  match rs with
  | [] => inr []
  | inl e :: _ => inl e
  | inr a :: rs' =>
      match sequence rs' with
      | inl e => inl e
      | inr vs => inr (a :: vs)
      end
  end.

(** [[os.path.basename(x).split("_-_")[1] for x in test_files]], with the
    [IndexError] of the first name that has a single token *)
Definition subjects_of (test_files : list string) : exn + list string :=
  sequence (map (fun x => match subject_of x with
                          | Some s => inr s
                          | None => inl "IndexError"
                          end) test_files).

(** The document a value encodes to.  The encoder follows references
    into the heap; [depth] bounds the nesting of [dict] objects, and a
    structure nested deeper than there are objects is circular. *)
Fixpoint to_json (h : list pydict) (depth : nat) (v : pyval) {struct depth}
  : exn + json :=
  match depth with
  | O => inl "ValueError: Circular reference detected"
  | S depth' =>
      (fix value (v : pyval) : exn + json :=
         match v with
         | VFloat x => inr (JNum x)
         | VList items =>
             match sequence (map value items) with
             | inl e => inl e
             | inr js => inr (JArr js)
             end
         | VDict l =>
             match h !! l with
             | None => inl "ReferenceError"
             | Some d =>
                 match sequence
                         (map (fun kv =>
                                 match to_json h depth' (snd kv) with
                                 | inl e => inl e
                                 | inr j => inr (fst kv, j)
                                 end) d) with
                 | inl e => inl e
                 | inr members => inr (JObj members)
                 end
             end
         | VDataset _ =>
             inl "TypeError: Object of type Dataset is not JSON serializable"
         end) v
  end.

(** The text of a document with the default separators of [json.dump];
    [float_repr] prints a number and [json_str] quotes a key. *)
Fixpoint json_text (float_repr : pyfloat -> string)
    (json_str : string -> string) (j : json) : string :=
  match j with
  | JNum x => float_repr x
  | JArr items =>
      "[" +:+ Str.join ", " (map (json_text float_repr json_str) items) +:+ "]"
  | JObj members =>
      "{" +:+ Str.join ", "
                (map (fun kv => json_str (fst kv) +:+ ": "
                                +:+ json_text float_repr json_str (snd kv))
                     members) +:+ "}"
  end.

(** ** Calls into the world, shared by the two scripts *)

Section World.

Context (env : Env).

(** [load_config(path)] and [json.load(open(path))] *)
Definition load_config (path : string) : M (gmap string string) :=
  emit (EvReadConfig path) ;; lift (env_config env path).

(** [config[key]] *)
Definition config_getitem (config : gmap string string) (key : string)
  : M string :=
  match config !! key with
  | Some v => mret v
  | None => raise "KeyError"
  end.

(** [os.makedirs(path, exist_ok=True)] *)
Definition makedirs (path : string) : M unit :=
  emit (EvMakedirs path) ;;
  match env_makedirs env path with
  | Some e => raise e
  | None => mret tt
  end.

(** [glob.glob(pathname)] *)
Definition glob (pathname : string) : M (list string) :=
  emit (EvGlob pathname) ;; mret (Glob.glob (env_listdir env) pathname).

(** The model constructor of the script *)
Definition build_model : M Model :=
  emit EvBuildModel ;; mret (env_build_model env).

(** [tf.keras.models.load_model(path)] *)
Definition load_model (path : string) : M Model :=
  emit (EvLoadModel path) ;; lift (env_load_model env path).

(** [model.load_weights(path)] *)
Definition load_weights (model : Model) (path : string) : M Model :=
  emit (EvLoadModel path) ;; lift (env_load_weights env model path).

(** [model.fit(train, validation_data=val, callbacks=[ModelCheckpoint(
    checkpoint, ...), CSVLogger(csv_log), EarlyStopping(...)])] *)
Definition fit (model : Model) (train val : Dataset)
    (checkpoint csv_log : string) : M Model :=
  emit (EvFit train val checkpoint csv_log) ;;
  lift (env_fit env model train val).

(** [create_tf_dataset(generator, ...)] *)
Definition make_dataset (ds : Dataset) : M Dataset :=
  emit (EvCreateDataset ds) ;; mret ds.

(** [list(set(tokens))]: the distinct tokens.  Python leaves the order of
    a set open; the order taken here is one of them, and the statements
    below use only that the list is duplicate-free with the elements of
    [tokens]. *)
Definition list_set (tokens : list string) : list string :=
  elements (list_to_set tokens : gset string).

(** [with open(path, "w") as fp: json.dump(value, fp)] *)
Definition json_dump (value : pyval) (path : string) : M unit :=
  match env_open_w env path with
  | Some e => raise e
  | None =>
      emit (EvOpenWrite path) ;;
      doc ← (fun st => (to_json (heap st) (S (length (heap st))) value, st));
      emit (EvWrite path
              (json_text (env_float_repr env) (env_json_str env) doc))
  end.

End World.

(** ** [task1_match_mismatch/experiments/dilated_convolutional_model.py] *)

Module Task1.
Section Script.

Context (env : Env).

(** Lines 36-39: the body of the loop of [evaluate_model], for the entry
    [(subject, ds_test)] of [test_dict] *)
Definition evaluate_subject (model : Model) (evaluation : loc)
    (entry : string * pyval) : M unit :=
  let '(subject, ds_test) := entry in
  logging_info ("Scores for subject " +:+ subject +:+ ":") ;;
  ds ← as_dataset ds_test;
  results ← model_evaluate model ds;
  let metrics := metrics_names model in
  scores ← new_dict (Dict.of_pairs (zip metrics (map VFloat results)));
  dict_setitem evaluation subject (VDict scores).

Definition evaluate_model (model : Model) (test_dict : loc) : M loc :=
  evaluation ← new_dict [];
  items ← dict_items test_dict;
  for_each items (evaluate_subject model evaluation) ;;
  mret evaluation.

(** What one pass of the loop of [evaluate_model] makes of an entry of
    [test_dict]: the scores of the subject, or the exception that ends
    the loop *)
Definition entry_scores (model : Model) (entry : string * pyval)
  : exn + pydict :=
  match snd entry with
  | VDataset ds =>
      match evaluate model ds with
      | inl e => inl e
      | inr results =>
          inr (Dict.of_pairs (zip (metrics_names model) (map VFloat results)))
      end
  | _ => inl "TypeError"
  end.

(** The events of that pass *)
Definition entry_events (model : Model) (entry : string * pyval)
  : list event :=
  EvLog ("Scores for subject " +:+ fst entry +:+ ":")
  :: match snd entry with
     | VDataset ds => [EvEvaluate ds]
     | _ => []
     end.

(** Parameters *)
Definition window_length : Z := 5 * 64.
Definition hop_length : Z := 64.
Definition spacing : Z := 64.
Definition epochs : Z := 100.
Definition patience : Z := 5.
Definition batch_size : Z := 64.
Definition only_evaluate : bool := false.
Definition training_log_filename : string := "training_log.csv".
Definition results_filename : string := "eval.json".
Definition stimulus_features : list string := ["envelope"].
Definition features : list string := ["eeg"] ++ stimulus_features.

(** The files of a split: [glob.glob(os.path.join(data_folder,
    "<split>_-_*"))] filtered by feature *)
Definition split_files (data_folder split : string) : M (list string) :=
  found ← glob env (os_path.join data_folder [split +:+ "_-_*"]);
  mret (select_features features found).

(** [create_tf_dataset(MatchMismatchDataGenerator(files, window_length,
    spacing=spacing), window_length, default_batch_equalizer_fn,
    hop_length, batch)] *)
Definition dataset_of (files : list string) (batch : Z) : Dataset :=
  create_tf_dataset (MatchMismatchDataGenerator files window_length spacing)
    window_length true hop_length batch None.

(** The value of [test_files] (lines 127-131) *)
Definition test_files_in (data_folder : string) : list string :=
  select_features features
    (Glob.glob (env_listdir env) (os_path.join data_folder ["test_-_*"])).

(** The dataset made for a subject (lines 137-144) *)
Definition subject_dataset (test_files : list string) (sub : string)
  : Dataset :=
  dataset_of (files_of_subject test_files sub) 1.

(** The entries of [datasets_test] when the loop of lines 136-144 is over *)
Definition datasets_test_entries (test_files subjects : list string)
  : list (string * pyval) :=
  map (fun sub => (sub, VDataset (subject_dataset test_files sub))) subjects.

(** Lines 62-77: the folders that depend on the place of the script only *)
Definition experiments_folder : string :=
  os_path.dirname (env_abspath env (env_file env)).
Definition root_folder : string :=
  os_path.dirname (os_path.dirname experiments_folder).
Definition results_folder : string :=
  os_path.join experiments_folder ["results_dilated_convolutional_model"].
Definition model_path : string := os_path.join results_folder ["model.h5"].
Definition results_path : string :=
  os_path.join results_folder [results_filename].
Definition training_log_path : string :=
  os_path.join results_folder [training_log_filename].

(** Lines 83-123: the [else] branch *)
Definition train (model : Model) (data_folder : string) : M Model :=
  train_files ← split_files data_folder "train";
  dataset_train ← make_dataset (dataset_of train_files batch_size);
  val_files ← split_files data_folder "val";
  dataset_val ← make_dataset (dataset_of val_files batch_size);
  fit env model dataset_train dataset_val model_path training_log_path.

(** Lines 127-144: the test files and one dataset per subject *)
Definition datasets_of_subjects (test_files : list string) : M loc :=
  tokens ← lift (subjects_of test_files);
  let subjects := list_set tokens in
  datasets_test ← new_dict [];
  for_each subjects (fun sub =>
    let files_test_sub := files_of_subject test_files sub in
    ds ← make_dataset (dataset_of files_test_sub 1);
    dict_setitem datasets_test sub (VDataset ds)) ;;
  mret datasets_test.

(** Lines 127-153: the evaluation on the test set and the results file *)
Definition evaluate_and_save (model : Model) (data_folder : string) : M unit :=
  test_files ← split_files data_folder "test";
  datasets_test ← datasets_of_subjects test_files;
  evaluation ← evaluate_model model datasets_test;
  json_dump env (VDict evaluation) results_path ;;
  logging_info ("Results saved at " +:+ results_path).

(** Lines 44-77: logging, the config, the results folder and the model *)
Definition setup : M (string * Model) :=
  emit EvEnableLogging ;;
  config ← load_config env (os_path.join root_folder ["config.json"]);
  dataset_folder ← config_getitem config "dataset_folder";
  split_folder ← config_getitem config "split_folder";
  let data_folder := os_path.join dataset_folder [split_folder] in
  makedirs env results_folder ;;
  model ← build_model env;
  mret (data_folder, model).

(** The script, for a value of its [only_evaluate] parameter *)
Definition main_with (only_evaluate : bool) : M unit :=
  '(data_folder, model) ← setup;
  model ← (if only_evaluate
           then load_model env model_path
           else train model data_folder);
  evaluate_and_save model data_folder.

Definition main : M unit := main_with only_evaluate.

End Script.
End Task1.

(** ** [task2_regression/experiments/vlaai_mel.py] *)

Module Task2.
Section Script.

Context (env : Env).

(** Lines 42-47: the batches of the dataset are concatenated, the model
    predicts and the correlations with the labels are taken *)
Definition model_correlations (model : Model) (ds : Dataset) : M ndarray :=
  emit (EvPredict ds) ;; lift (predict_correlations model ds).

(** Lines 40-56: the body of the loop of [evaluate_model], for the entry
    [(subject, ds_test)] of [test_dict] *)
Definition evaluate_subject (model : Model) (evaluation : loc)
    (entry : string * pyval) : M unit :=
  let '(subject, ds_test) := entry in
  logging_info ("Scores for subject " +:+ subject +:+ ":") ;;
  ds ← as_dataset ds_test;
  raw ← model_correlations model ds;
  let correlations := np.squeeze raw in
  results ← model_evaluate model ds;
  let metrics := metrics_names model in
  scores ← new_dict (Dict.of_pairs (zip metrics (map VFloat results)));
  dict_setitem evaluation subject (VDict scores) ;;
  per_band ← lift (np.mean_axis0 (env_avg env) correlations);
  current ← dict_getitem evaluation subject;
  target ← as_dict current;
  dict_setitem target "pearson_correlation_per_band" (np.tolist per_band).

Definition evaluate_model (model : Model) (test_dict : loc) : M loc :=
  evaluation ← new_dict [];
  items ← dict_items test_dict;
  for_each items (evaluate_subject model evaluation) ;;
  mret evaluation.

(** What one pass of the loop of [evaluate_model] makes of an entry of
    [test_dict]: the scores of the subject, or the exception that ends
    the loop *)
Definition entry_scores (model : Model) (entry : string * pyval)
  : exn + pydict :=
  match snd entry with
  | VDataset ds =>
      match predict_correlations model ds with
      | inl e => inl e
      | inr raw =>
          match evaluate model ds with
          | inl e => inl e
          | inr results =>
              match np.mean_axis0 (env_avg env) (np.squeeze raw) with
              | inl e => inl e
              | inr per_band =>
                  inr (Dict.set
                         (Dict.of_pairs
                            (zip (metrics_names model) (map VFloat results)))
                         "pearson_correlation_per_band" (np.tolist per_band))
              end
          end
      end
  | _ => inl "TypeError"
  end.

(** The events of that pass *)
Definition entry_events (model : Model) (entry : string * pyval)
  : list event :=
  EvLog ("Scores for subject " +:+ fst entry +:+ ":")
  :: match snd entry with
     | VDataset ds =>
         EvPredict ds
         :: match predict_correlations model ds with
            | inl _ => []
            | inr _ => [EvEvaluate ds]
            end
     | _ => []
     end.

(** Parameters *)
Definition fs : Z := 64.
Definition window_length : Z := 5 * fs.
Definition hop_length : Z := 1 * fs.
Definition epochs : Z := 100.
Definition patience : Z := 10.
Definition batch_size : Z := 10.
Definition only_evaluate : bool := false.
Definition training_log_filename : string := "training_log.csv".
Definition results_filename : string := "eval.json".
Definition stimulus_features : list string := ["mel"].
Definition features : list string := ["eeg"] ++ stimulus_features.

(** The files of a split: [glob.glob(os.path.join(data_folder, "<split>",
    "<split>_-_*"))] filtered by feature *)
Definition split_files (data_folder split : string) : M (list string) :=
  found ← glob env (os_path.join data_folder [split; split +:+ "_-_*"]);
  mret (select_features features found).

(** [create_tf_dataset(DataGenerator(files, window_length), window_length,
    None, hop_length, batch, data_types=(tf.float32, tf.float32),
    feature_dims=(64, 10))] *)
Definition dataset_of (files : list string) (batch : Z) : Dataset :=
  create_tf_dataset (DataGenerator files window_length)
    window_length false hop_length batch (Some (64, 10)%Z).

(** The value of [test_files] (line 136) *)
Definition test_files_in (data_folder : string) : list string :=
  select_features features
    (Glob.glob (env_listdir env)
       (os_path.join data_folder ["test"; "test_-_*"])).

(** The dataset made for a subject (lines 142-144) *)
Definition subject_dataset (test_files : list string) (sub : string)
  : Dataset :=
  dataset_of (files_of_subject test_files sub) 64.

(** The entries of [datasets_test] when the loop of lines 141-144 is over *)
Definition datasets_test_entries (test_files subjects : list string)
  : list (string * pyval) :=
  map (fun sub => (sub, VDataset (subject_dataset test_files sub))) subjects.

(** Lines 79-103: the folders that depend on the place of the script only *)
Definition experiments_folder : string := os_path.dirname (env_file env).
Definition task_folder : string := os_path.dirname experiments_folder.
Definition util_folder : string :=
  os_path.join (os_path.dirname task_folder) ["util"].
Definition config_path : string := os_path.join util_folder ["config.json"].
Definition results_folder : string :=
  os_path.join experiments_folder ["results_vlaai_mel"].
Definition model_path : string := os_path.join results_folder ["model.h5"].
Definition results_path : string :=
  os_path.join results_folder [results_filename].
Definition training_log_path : string :=
  os_path.join results_folder [training_log_filename].

(** Lines 109-132: the [else] branch *)
Definition train (model : Model) (data_folder : string) : M Model :=
  train_files ← split_files data_folder "train";
  dataset_train ← make_dataset (dataset_of train_files batch_size);
  val_files ← split_files data_folder "val";
  dataset_val ← make_dataset (dataset_of val_files batch_size);
  fit env model dataset_train dataset_val model_path training_log_path.

(** Lines 136-144: the test files and one dataset per subject *)
Definition datasets_of_subjects (test_files : list string) : M loc :=
  tokens ← lift (subjects_of test_files);
  let subjects := list_set tokens in
  datasets_test ← new_dict [];
  for_each subjects (fun sub =>
    let files_test_sub := files_of_subject test_files sub in
    ds ← make_dataset (dataset_of files_test_sub 64);
    dict_setitem datasets_test sub (VDataset ds)) ;;
  mret datasets_test.

(** Lines 136-152: the evaluation on the test set and the results file *)
Definition evaluate_and_save (model : Model) (data_folder : string) : M unit :=
  test_files ← split_files data_folder "test";
  datasets_test ← datasets_of_subjects test_files;
  evaluation ← evaluate_model model datasets_test;
  json_dump env (VDict evaluation) results_path ;;
  logging_info ("Results saved at " +:+ results_path).

(** Lines 78-103: the config, the results folder and the model *)
Definition setup : M (string * Model) :=
  config ← load_config env config_path;
  dataset_folder ← config_getitem config "dataset_folder";
  derivatives_folder ← config_getitem config "derivatives_folder";
  split_folder ← config_getitem config "split_folder";
  let data_folder :=
    os_path.join dataset_folder [derivatives_folder; split_folder] in
  makedirs env results_folder ;;
  model ← build_model env;
  mret (data_folder, model).

(** The script, for a value of its [only_evaluate] parameter *)
Definition main_with (only_evaluate : bool) : M unit :=
  '(data_folder, model) ← setup;
  model ← (if only_evaluate
           then load_weights env model model_path
           else train model data_folder);
  evaluate_and_save model data_folder.

Definition main : M unit := main_with only_evaluate.

End Script.
End Task2.

(** ** A sample world *)

Module Sample.

(** A model with two metrics *)
Definition model : Model :=
  {| metrics_names := ["loss"; "acc"];
     evaluate := fun _ => inr [1; 2]%Z;
     predict_correlations :=
       fun _ => inr (mk_ndarray [2; 1; 3] [1; 2; 3; 4; 5; 6]%Z) |}.

(** A model that reports the same metric name twice *)
Definition model_twice : Model :=
  {| metrics_names := ["loss"; "loss"];
     evaluate := fun _ => inr [1; 2]%Z;
     predict_correlations :=
       fun _ => inr (mk_ndarray [2; 1; 3] [1; 2; 3; 4; 5; 6]%Z) |}.

(** A model whose evaluation fails *)
Definition model_failing : Model :=
  {| metrics_names := ["loss"; "acc"];
     evaluate := fun _ => inl "InvalidArgumentError";
     predict_correlations :=
       fun _ => inr (mk_ndarray [2; 1; 3] [1; 2; 3; 4; 5; 6]%Z) |}.

(** A world around a model and a listing of the split folders *)
Definition world (the_model : Model) (listing : list string) : Env :=
  {| env_argv := [];
     env_file := "/repo/task/experiments/run.py";
     env_abspath := fun path => path;
     env_config := fun _ =>
       inr (<["dataset_folder" := "/data"]>
              (<["derivatives_folder" := "derivatives"]>
                 (<["split_folder" := "split"]> ∅)));
     env_listdir := fun _ => listing;
     env_makedirs := fun _ => None;
     env_build_model := the_model;
     env_load_model := fun _ => inr the_model;
     env_load_weights := fun m _ => inr m;
     env_fit := fun m _ _ => inr m;
     env_open_w := fun _ => None;
     env_avg := fun xs => fold_right Z.add 0%Z xs;
     env_float_repr := fun _ => "0.5";
     env_json_str := fun key => "'" +:+ key +:+ "'" |}.

(** Two subjects with two features each, and files of other splits *)
Definition listing : list string :=
  ["test_-_sub-001_-_eeg.npy"; "test_-_sub-001_-_envelope.npy";
   "test_-_sub-001_-_mel.npy"; "test_-_sub-002_-_eeg.npy";
   "test_-_sub-002_-_envelope.npy"; "test_-_sub-002_-_mel.npy";
   "train_-_sub-003_-_eeg.npy"; "val_-_sub-004_-_eeg.npy"; "notes.txt"].

(** Two subjects, the name of one being the start of the other's *)
Definition listing_collision : list string :=
  ["test_-_sub-1_-_eeg.npy"; "test_-_sub-10_-_eeg.npy"].

Definition env : Env := world model listing.

(** An interpreter that has not run anything yet *)
Definition start : State := {| heap := []; trace := [] |}.

(** A dataset and a [test_dict] with one subject, at address 0 *)
Definition dataset : Dataset :=
  Task1.dataset_of ["/data/split/test_-_sub-001_-_eeg.npy"] 1.

Definition with_test_dict : State :=
  {| heap := [[("sub-001", VDataset dataset)]]; trace := [] |}.

End Sample.

(** ** Derived notions used by the statements *)



(** The entries of the directory a pattern is matched in, as paths *)
Definition candidates (listdir : string -> list string) (pathname : string)
  : list string :=
  map (os_path.join2 (os_path.dirname pathname))
      (listdir (os_path.dirname pathname)).

(** The datasets a list of events evaluates the model on, in order *)
Definition evaluated (evs : list event) : list Dataset :=
  omap (fun ev => match ev with
                  | EvEvaluate ds => Some ds
                  | _ => None
                  end) evs.

(** The same world, the script being started with other arguments *)
Definition with_argv (env : Env) (argv : list string) : Env :=
  {| env_argv := argv;
     env_file := env_file env;
     env_abspath := env_abspath env;
     env_config := env_config env;
     env_listdir := env_listdir env;
     env_makedirs := env_makedirs env;
     env_build_model := env_build_model env;
     env_load_model := env_load_model env;
     env_load_weights := env_load_weights env;
     env_fit := env_fit env;
     env_open_w := env_open_w env;
     env_avg := env_avg env;
     env_float_repr := env_float_repr env;
     env_json_str := env_json_str env |}.



(** The events of a run: what the trace gained *)
Definition new_events (st st' : State) : list event :=
  drop (length (trace st)) (trace st').

(** A loop over the entries of a [dict], told entry by entry: [outcome]
    is the object a pass makes or the exception it ends with, [events]
    what the pass does to the world.  The loop stops at the first
    exception. *)
Section Entries.

Context (outcome : string * pyval -> exn + pydict).
Context (events : string * pyval -> list event).

Fixpoint entries_error (items : list (string * pyval)) : option exn :=
  match items with
  | [] => None
  | entry :: rest =>
      match outcome entry with
      | inl e => Some e
      | inr _ => entries_error rest
      end
  end.

Fixpoint entries_dicts (items : list (string * pyval)) : list pydict :=
  match items with
  | [] => []
  | entry :: rest =>
      match outcome entry with
      | inl _ => []
      | inr d => d :: entries_dicts rest
      end
  end.

Fixpoint entries_events (items : list (string * pyval)) : list event :=
  match items with
  | [] => []
  | entry :: rest =>
      events entry ++ match outcome entry with
                      | inl _ => []
                      | inr _ => entries_events rest
                      end
  end.

End Entries.

(** The [dict] that maps each subject to the object made for it, the
    objects being allocated one after the other from address [next] *)
Fixpoint record_refs (d : pydict) (next : loc) (subjects : list string)
  : pydict :=
  match subjects with
  | [] => d
  | s :: rest => record_refs (Dict.set d s (VDict next)) (S next) rest
  end.

(** * Strings, paths and patterns *)

Lemma string_app_cons (x : ascii) (a b : string) :
  String x a +:+ b = String x (a +:+ b).
Proof. reflexivity. Qed.


Lemma prefix_nil (s : string) : String.prefix "" s = true.
Proof. by destruct s. Qed.

Lemma prefix_cons (a b : ascii) (p s : string) :
  String.prefix (String a p) (String b s)
  = Ascii.eqb a b && String.prefix p s.
Proof.
  simpl. destruct (ascii_dec a b) as [->|Hne].
  - by rewrite Ascii.eqb_refl.
  - by apply Ascii.eqb_neq in Hne as ->.
Qed.

Lemma prefix_app_inv (p s : string) :
  String.prefix p s = true -> exists r, s = p +:+ r.
Proof.
  revert s. induction p as [|a p IH]; intros s H.
  - by exists s.
  - destruct s as [|b s]; [done|].
    rewrite prefix_cons in H. apply andb_prop in H as [Hab Hp].
    apply Ascii.eqb_eq in Hab as ->.
    destruct (IH _ Hp) as [r ->]. by exists r.
Qed.

Lemma prefix_app (p r : string) : String.prefix p (p +:+ r) = true.
Proof.
  induction p as [|a p IH]; [apply prefix_nil|].
  by rewrite string_app_cons, prefix_cons, Ascii.eqb_refl.
Qed.


(** *** [fnmatch] with a literal text followed by a star *)




(** *** [basename] of a joined path *)





Lemma str_drop_app_length (p s : string) : Str.drop (String.length p) (p +:+ s) = s.
Proof. induction p as [|c p IH]; [by destruct s|]. exact IH. Qed.





(** *** The files [glob.glob] answers *)



Lemma run_glob (env : Env) (pathname : string) (st : State) :
  glob env pathname st
  = (inr (Glob.glob (env_listdir env) pathname),
     {| heap := heap st; trace := trace st ++ [EvGlob pathname] |}).
Proof. reflexivity. Qed.



(** * Runs *)

Lemma run_bind {A B : Type} (m : M A) (f : A -> M B) (st : State) :
  (m ≫= f) st = match m st with
                | (inr a, st') => f a st'
                | (inl e, st') => (inl e, st')
                end.
Proof. reflexivity. Qed.

Lemma bind_inr_inv {A B : Type} (m : M A) (f : A -> M B) (st st' : State)
    (b : B) :
  (m ≫= f) st = (inr b, st') ->
  exists a st1, m st = (inr a, st1) /\ f a st1 = (inr b, st').
Proof.
  rewrite run_bind. destruct (m st) as [[e|a] st1]; [done|]. eauto.
Qed.

Lemma state_eta (st : State) (evs : list event) :
  evs = [] -> {| heap := heap st; trace := trace st ++ evs |} = st.
Proof. intros ->. destruct st. simpl. by rewrite app_nil_r. Qed.

Lemma new_events_app (st : State) (h : list pydict) (evs : list event) :
  new_events st {| heap := h; trace := trace st ++ evs |} = evs.
Proof. unfold new_events. simpl. by rewrite drop_app_length. Qed.

(** Symbolic execution of a run: the monad and its primitive steps are
    unfolded, the state projections are reduced. *)
Ltac run_steps :=
  cbv [mbind M_bind mret M_ret emit lift raise new_dict deref store
       dict_items dict_getitem dict_setitem as_dataset as_dict
       logging_info model_evaluate];
  cbn [heap trace fst snd].

(** *** The loop over the entries of a [dict] *)

Section Entries_run.

Context (outcome : string * pyval -> exn + pydict).
Context (events : string * pyval -> list event).
Context (e : loc) (body : string * pyval -> M unit).

(** One pass: on success the object made is the next one of the heap and
    the [dict] at [e] refers to it under the key of the entry; a pass
    that fails leaves every object but the one at [e] as it was. *)
Hypothesis body_pass : forall entry st d,
  heap st !! e = Some d ->
  match outcome entry with
  | inr scores =>
      body entry st
      = (inr tt,
         {| heap := <[e := Dict.set d (fst entry) (VDict (length (heap st)))]>
                      (heap st) ++ [scores];
            trace := trace st ++ events entry |})
  | inl ex =>
      exists h', body entry st
                 = (inl ex, {| heap := h'; trace := trace st ++ events entry |})
                 /\ forall l, l < length (heap st) -> l <> e ->
                      h' !! l = heap st !! l
  end.

Lemma for_each_entries (items : list (string * pyval)) :
  forall st d, heap st !! e = Some d ->
  exists h',
    for_each items body st
    = (match entries_error outcome items with
       | None => inr tt
       | Some ex => inl ex
       end,
       {| heap := h';
          trace := trace st ++ entries_events outcome events items |})
    /\ (forall l, l < length (heap st) -> l <> e -> h' !! l = heap st !! l)
    /\ (entries_error outcome items = None ->
        h' = <[e := record_refs d (length (heap st)) (map fst items)]> (heap st)
             ++ entries_dicts outcome items).
Proof.
  induction items as [|entry rest IH]; intros st d Hd.
  - exists (heap st). simpl. split; [|split].
    + unfold mret, M_ret. by rewrite state_eta.
    + done.
    + intros _. by rewrite list_insert_id, app_nil_r.
  - pose proof (lookup_lt_Some _ _ _ Hd) as Hlt.
    simpl. rewrite run_bind.
    pose proof (body_pass entry st d Hd) as Hpass.
    destruct (outcome entry) as [ex|scores].
    + destruct Hpass as (h' & -> & Hframe).
      exists h'. rewrite app_nil_r. done.
    + rewrite Hpass.
      set (d1 := Dict.set d (fst entry) (VDict (length (heap st)))) in *.
      set (st1 := {| heap := <[e := d1]> (heap st) ++ [scores];
                     trace := trace st ++ events entry |}).
      assert (Hd1 : heap st1 !! e = Some d1).
      { simpl. rewrite lookup_app_l by (by rewrite length_insert).
        by apply list_lookup_insert_eq. }
      assert (Hlen : length (heap st1) = S (length (heap st))).
      { simpl. rewrite length_app, length_insert. simpl. lia. }
      destruct (IH st1 d1 Hd1) as (h' & Hrun & Hframe & Hok).
      exists h'. split; [|split].
      * rewrite Hrun. simpl. by rewrite app_assoc.
      * intros l Hl Hne. rewrite Hframe by lia.
        simpl. rewrite lookup_app_l by (rewrite length_insert; lia).
        by apply list_lookup_insert_ne.
      * intros Herr. rewrite (Hok Herr), Hlen. simpl.
        rewrite insert_app_l by (by rewrite length_insert).
        rewrite list_insert_insert_eq.
        by rewrite <- app_assoc.
Qed.

End Entries_run.

(** *** Operations on a [dict] value *)

Lemma dict_get_set_eq (d : pydict) (k : string) (v : pyval) :
  Dict.get (Dict.set d k v) k = Some v.
Proof.
  induction d as [|[k' v'] d IH]; simpl.
  - by rewrite String.eqb_refl.
  - destruct (String.eqb k' k) eqn:E; simpl; rewrite E; done.
Qed.

Lemma dict_get_set_ne (d : pydict) (k k' : string) (v : pyval) :
  k <> k' -> Dict.get (Dict.set d k v) k' = Dict.get d k'.
Proof.
  intros Hne. induction d as [|[k0 v0] d IH]; simpl.
  - by apply String.eqb_neq in Hne as ->.
  - destruct (String.eqb k0 k) eqn:E; simpl.
    + apply String.eqb_eq in E as ->.
      by apply String.eqb_neq in Hne as ->.
    + by rewrite IH.
Qed.

(** *** One pass of the loop of [evaluate_model] *)

Lemma task1_evaluate_subject_pass (model : Model) (e : loc) :
  forall entry st d,
  heap st !! e = Some d ->
  match Task1.entry_scores model entry with
  | inr scores =>
      Task1.evaluate_subject model e entry st
      = (inr tt,
         {| heap := <[e := Dict.set d (fst entry) (VDict (length (heap st)))]>
                      (heap st) ++ [scores];
            trace := trace st ++ Task1.entry_events model entry |})
  | inl ex =>
      exists h', Task1.evaluate_subject model e entry st
                 = (inl ex, {| heap := h';
                               trace := trace st
                                        ++ Task1.entry_events model entry |})
                 /\ forall l, l < length (heap st) -> l <> e ->
                      h' !! l = heap st !! l
  end.
Proof.
  intros [subject v] st d Hd.
  pose proof (lookup_lt_Some _ _ _ Hd) as Hlt.
  unfold Task1.entry_scores, Task1.entry_events, Task1.evaluate_subject.
  destruct v as [x|items|l|ds]; simpl;
    try (by exists (heap st)).
  destruct (evaluate model ds) as [ex|results] eqn:Hev.
  - exists (heap st). run_steps. rewrite Hev. by rewrite <- app_assoc.
  - run_steps. rewrite Hev. run_steps.
    rewrite lookup_app_l by done. rewrite Hd. run_steps.
    rewrite insert_app_l by done. by rewrite <- app_assoc.
Qed.

Lemma task2_evaluate_subject_pass (env : Env) (model : Model) (e : loc) :
  forall entry st d,
  heap st !! e = Some d ->
  match Task2.entry_scores env model entry with
  | inr scores =>
      Task2.evaluate_subject env model e entry st
      = (inr tt,
         {| heap := <[e := Dict.set d (fst entry) (VDict (length (heap st)))]>
                      (heap st) ++ [scores];
            trace := trace st ++ Task2.entry_events model entry |})
  | inl ex =>
      exists h', Task2.evaluate_subject env model e entry st
                 = (inl ex, {| heap := h';
                               trace := trace st
                                        ++ Task2.entry_events model entry |})
                 /\ forall l, l < length (heap st) -> l <> e ->
                      h' !! l = heap st !! l
  end.
Proof.
  intros [subject v] st d Hd.
  pose proof (lookup_lt_Some _ _ _ Hd) as Hlt.
  unfold Task2.entry_scores, Task2.entry_events, Task2.evaluate_subject.
  destruct v as [x|items|l|ds]; simpl;
    try (by exists (heap st)).
  unfold Task2.model_correlations.
  destruct (predict_correlations model ds) as [ex|raw] eqn:Hpr.
  { exists (heap st). run_steps. rewrite Hpr. by rewrite <- app_assoc. }
  destruct (evaluate model ds) as [ex|results] eqn:Hev.
  { exists (heap st). run_steps. rewrite Hpr. run_steps. rewrite Hev.
    by rewrite <- !app_assoc. }
  set (scores := Dict.of_pairs (zip (metrics_names model) (map VFloat results))).
  set (d1 := Dict.set d subject (VDict (length (heap st)))).
  assert (Hd1 : (<[e := d1]> (heap st ++ [scores])) !! e = Some d1).
  { apply list_lookup_insert_eq. rewrite length_app. lia. }
  assert (Hsc : (<[e := d1]> (heap st ++ [scores])) !! length (heap st)
                = Some scores).
  { rewrite list_lookup_insert_ne by lia. by apply list_lookup_middle. }
  destruct (np.mean_axis0 (env_avg env) (np.squeeze raw))
    as [ex|per_band] eqn:Hmean.
  - exists (<[e := d1]> (heap st ++ [scores])).
    run_steps. rewrite Hpr. run_steps. rewrite Hev. run_steps.
    rewrite lookup_app_l by done. rewrite Hd. run_steps. rewrite Hmean.
    split; [by rewrite <- !app_assoc|].
    intros l Hl Hne. rewrite list_lookup_insert_ne by done.
    by apply lookup_app_l.
  - run_steps. rewrite Hpr. run_steps. rewrite Hev. run_steps.
    rewrite lookup_app_l by done. rewrite Hd. run_steps. rewrite Hmean.
    fold scores d1. rewrite Hd1. run_steps.
    unfold d1 at 1. rewrite dict_get_set_eq. run_steps.
    rewrite Hsc. run_steps.
    rewrite <- !app_assoc. simpl. do 2 f_equal.
    rewrite insert_app_l by done.
    rewrite (insert_app_r_alt _ _ (length (heap st)))
      by (by rewrite length_insert).
    by rewrite length_insert, Nat.sub_diag.
Qed.

(** *** [evaluate_model] as a whole *)

Section Evaluate_model_run.

Context (outcome : string * pyval -> exn + pydict).
Context (events : string * pyval -> list event).
Context (body : loc -> string * pyval -> M unit).

Hypothesis body_pass : forall e entry st d,
  heap st !! e = Some d ->
  match outcome entry with
  | inr scores =>
      body e entry st
      = (inr tt,
         {| heap := <[e := Dict.set d (fst entry) (VDict (length (heap st)))]>
                      (heap st) ++ [scores];
            trace := trace st ++ events entry |})
  | inl ex =>
      exists h', body e entry st
                 = (inl ex, {| heap := h'; trace := trace st ++ events entry |})
                 /\ forall l, l < length (heap st) -> l <> e ->
                      h' !! l = heap st !! l
  end.

(** The shape both scripts give to [evaluate_model] *)
Let program (test_dict : loc) : M loc :=
  evaluation ← new_dict [];
  items ← dict_items test_dict;
  for_each items (body evaluation) ;;
  mret evaluation.

Lemma evaluate_model_run (t : loc) (st : State)
    (items : list (string * pyval)) :
  heap st !! t = Some items ->
  exists h',
    program t st
    = (match entries_error outcome items with
       | None => inr (length (heap st))
       | Some ex => inl ex
       end,
       {| heap := h';
          trace := trace st ++ entries_events outcome events items |})
    /\ (forall l, l < length (heap st) -> h' !! l = heap st !! l)
    /\ (entries_error outcome items = None ->
        h' = heap st ++ record_refs [] (S (length (heap st))) (map fst items)
                        :: entries_dicts outcome items).
Proof.
  intros Ht. pose proof (lookup_lt_Some _ _ _ Ht) as Hlt.
  unfold program. run_steps.
  rewrite lookup_app_l by done. rewrite Ht.
  set (st1 := {| heap := heap st ++ [[]]; trace := trace st |}).
  destruct (for_each_entries outcome events (length (heap st)) _
              (body_pass (length (heap st))) items st1 [])
    as (h' & Hrun & Hframe & Hok).
  { by apply list_lookup_middle. }
  exists h'. rewrite Hrun. split; [|split].
  - by destruct (entries_error _ items).
  - intros l Hl. rewrite Hframe; simpl.
    + by apply lookup_app_l.
    + rewrite length_app. simpl. lia.
    + lia.
  - intros Herr. rewrite (Hok Herr). simpl.
    rewrite length_app. simpl.
    replace (length (heap st) + 1) with (S (length (heap st))) by lia.
    rewrite (insert_app_r_alt _ _ (length (heap st))) by done.
    rewrite Nat.sub_diag. simpl.
    by rewrite <- app_assoc.
Qed.

(** Whatever the address passed as [test_dict], the objects that were
    there before the call are the same after it. *)
Lemma evaluate_model_frame (t : loc) (st : State) :
  forall l, l < length (heap st) ->
    heap (snd (program t st)) !! l = heap st !! l.
Proof.
  intros l Hl. destruct (heap st !! t) as [items|] eqn:Ht.
  - destruct (evaluate_model_run t st items Ht) as (h' & -> & Hframe & _).
    simpl. by apply Hframe.
  - apply lookup_ge_None in Ht.
    unfold program. run_steps.
    destruct ((heap st ++ [[]]) !! t) as [items|] eqn:Ht'.
    + pose proof (lookup_lt_Some _ _ _ Ht') as Hlt.
      rewrite length_app in Hlt. simpl in Hlt.
      assert (t = length (heap st)) as -> by lia.
      rewrite lookup_app_r, Nat.sub_diag in Ht' by done.
      injection Ht' as <-. simpl. by apply lookup_app_l.
    + simpl. by apply lookup_app_l.
Qed.

End Evaluate_model_run.

Lemma task1_evaluate_model_run (model : Model) (t : loc) (st : State)
    (items : list (string * pyval)) :
  heap st !! t = Some items ->
  exists h',
    Task1.evaluate_model model t st
    = (match entries_error (Task1.entry_scores model) items with
       | None => inr (length (heap st))
       | Some ex => inl ex
       end,
       {| heap := h';
          trace := trace st ++ entries_events (Task1.entry_scores model)
                                 (Task1.entry_events model) items |})
    /\ (forall l, l < length (heap st) -> h' !! l = heap st !! l)
    /\ (entries_error (Task1.entry_scores model) items = None ->
        h' = heap st ++ record_refs [] (S (length (heap st))) (map fst items)
                        :: entries_dicts (Task1.entry_scores model) items).
Proof.
  apply (evaluate_model_run _ _ (Task1.evaluate_subject model)).
  intros e. apply task1_evaluate_subject_pass.
Qed.

Lemma task2_evaluate_model_run (env : Env) (model : Model) (t : loc)
    (st : State) (items : list (string * pyval)) :
  heap st !! t = Some items ->
  exists h',
    Task2.evaluate_model env model t st
    = (match entries_error (Task2.entry_scores env model) items with
       | None => inr (length (heap st))
       | Some ex => inl ex
       end,
       {| heap := h';
          trace := trace st ++ entries_events (Task2.entry_scores env model)
                                 (Task2.entry_events model) items |})
    /\ (forall l, l < length (heap st) -> h' !! l = heap st !! l)
    /\ (entries_error (Task2.entry_scores env model) items = None ->
        h' = heap st ++ record_refs [] (S (length (heap st))) (map fst items)
                        :: entries_dicts (Task2.entry_scores env model) items).
Proof.
  apply (evaluate_model_run _ _ (Task2.evaluate_subject env model)).
  intros e. apply task2_evaluate_subject_pass.
Qed.

(** * Dictionaries *)

Lemma dict_keys_set (d : pydict) (k : string) (v : pyval) :
  Dict.keys (Dict.set d k v)
  = if decide (k ∈ Dict.keys d) then Dict.keys d else Dict.keys d ++ [k].
Proof.
  unfold Dict.keys. induction d as [|[k' v'] d IH].
  - destruct (decide (k ∈ map fst [])) as [Hin|_]; [|done].
    by apply elem_of_nil in Hin.
  - cbn [Dict.set]. destruct (String.eqb k' k) eqn:E.
    + apply String.eqb_eq in E as ->.
      destruct (decide (k ∈ map fst ((k, v') :: d))) as [_|Hnin]; [done|].
      exfalso. apply Hnin. apply elem_of_cons; by left.
    + apply String.eqb_neq in E. cbn [map fst]. rewrite IH.
      destruct (decide (k ∈ map fst d)) as [Hin|Hnin];
        destruct (decide (k ∈ k' :: map fst d)) as [Hin'|Hnin']; try done.
      * exfalso. apply Hnin'. apply elem_of_cons; by right.
      * apply elem_of_cons in Hin' as [->|?]; done.
Qed.

Lemma dict_update_snoc (d : pydict) (pairs : list (string * pyval))
    (k : string) (v : pyval) :
  Dict.update d (pairs ++ [(k, v)]) = Dict.set (Dict.update d pairs) k v.
Proof. unfold Dict.update. by rewrite fold_left_app. Qed.

Lemma dict_update_cons (d : pydict) (pairs : list (string * pyval))
    (k : string) (v : pyval) :
  Dict.update d ((k, v) :: pairs) = Dict.update (Dict.set d k v) pairs.
Proof. reflexivity. Qed.

Lemma dict_keys_update_elem (d : pydict) (pairs : list (string * pyval))
    (k : string) :
  k ∈ Dict.keys (Dict.update d pairs) <-> k ∈ Dict.keys d \/ k ∈ map fst pairs.
Proof.
  revert d. induction pairs as [|[k' v'] pairs IH]; intros d.
  - simpl. rewrite elem_of_nil. tauto.
  - rewrite dict_update_cons, IH, dict_keys_set. simpl.
    rewrite elem_of_cons.
    destruct (decide (k' ∈ Dict.keys d)) as [Hin|Hnin].
    + split; [tauto|]. intros [?|[->|?]]; tauto.
    + rewrite elem_of_app, list_elem_of_singleton. tauto.
Qed.

Lemma dict_keys_update_NoDup (d : pydict) (pairs : list (string * pyval)) :
  NoDup (Dict.keys d) -> NoDup (Dict.keys (Dict.update d pairs)).
Proof.
  revert d. induction pairs as [|[k' v'] pairs IH]; intros d Hd; [done|].
  rewrite dict_update_cons. apply IH. rewrite dict_keys_set.
  destruct (decide (k' ∈ Dict.keys d)) as [Hin|Hnin]; [done|].
  apply NoDup_app. split; [done|]. split; [|apply NoDup_singleton].
  intros x Hx Hx'. apply list_elem_of_singleton in Hx' as ->. done.
Qed.

Lemma dict_get_None (d : pydict) (k : string) :
  Dict.get d k = None <-> k ∉ Dict.keys d.
Proof.
  unfold Dict.keys. induction d as [|[k' v'] d IH]; simpl.
  - split; [intros _; apply not_elem_of_nil|done].
  - rewrite not_elem_of_cons. destruct (String.eqb k' k) eqn:E.
    + apply String.eqb_eq in E as ->. split; [done|]. intros [? _]. done.
    + apply String.eqb_neq in E. rewrite IH. split; [|tauto].
      intros ?. split; [congruence|done].
Qed.

Lemma dict_get_elem (d : pydict) (k : string) (v : pyval) :
  Dict.get d k = Some v -> (k, v) ∈ d.
Proof.
  induction d as [|[k' v'] d IH]; simpl; [done|].
  destruct (String.eqb k' k) eqn:E.
  - apply String.eqb_eq in E as ->. intros [= ->]. apply elem_of_cons; by left.
  - intros H. apply elem_of_cons; right. by apply IH.
Qed.

(** The value [dict(pairs)] has for a key is the one of the last pair
    with that key. *)
Lemma dict_get_update_last (d : pydict) (before after : list (string * pyval))
    (k : string) (v : pyval) :
  k ∉ map fst after ->
  Dict.get (Dict.update d (before ++ (k, v) :: after)) k = Some v.
Proof.
  induction after as [|[k' v'] after IH] using rev_ind; intros Hk.
  - rewrite dict_update_snoc. apply dict_get_set_eq.
  - rewrite map_app, not_elem_of_app in Hk. destruct Hk as [Hk Hk'].
    simpl in Hk'. rewrite not_elem_of_cons in Hk'. destruct Hk' as [Hne _].
    replace (before ++ (k, v) :: after ++ [(k', v')])
      with ((before ++ (k, v) :: after) ++ [(k', v')])
      by (by rewrite <- app_assoc).
    rewrite dict_update_snoc, dict_get_set_ne by done. by apply IH.
Qed.


(** *** [zip] *)

Lemma zip_keys {A B : Type} (a : list A) (b : list B) :
  map fst (zip a b) = take (length b) a.
Proof.
  revert b. induction a as [|x a IH]; intros [|y b]; simpl; try done.
  by rewrite IH.
Qed.


Lemma zip_split {A B : Type} (a : list A) (b : list B) (i : nat) (x : A)
    (y : B) :
  a !! i = Some x -> b !! i = Some y ->
  zip a b = zip (take i a) (take i b)
            ++ (x, y) :: zip (drop (S i) a) (drop (S i) b).
Proof.
  revert a b. induction i as [|i IH]; intros [|x' a] [|y' b]; simpl;
    try done.
  - by intros [= ->] [= ->].
  - intros Ha Hb. f_equal. by apply IH.
Qed.

Lemma dict_length_of_pairs (pairs : list (string * pyval)) :
  length (Dict.of_pairs pairs) = length (remove_dups (map fst pairs)).
Proof.
  rewrite <- (length_fmap fst (Dict.of_pairs pairs)).
  apply Permutation_length, NoDup_Permutation.
  - apply (dict_keys_update_NoDup [] pairs), NoDup_nil_2.
  - apply NoDup_remove_dups.
  - intros k. rewrite elem_of_remove_dups.
    rewrite (dict_keys_update_elem [] pairs k). simpl.
    rewrite elem_of_nil. tauto.
Qed.

Lemma remove_dups_NoDup_length {A : Type} `{EqDecision A} (l : list A) :
  NoDup l -> length (remove_dups l) = length l.
Proof.
  intros Hl. apply Permutation_length, NoDup_Permutation; [|done|].
  - apply NoDup_remove_dups.
  - intros x. apply elem_of_remove_dups.
Qed.

(** *** The entry-by-entry account of a loop *)

Section Entries_facts.

Context (outcome : string * pyval -> exn + pydict).
Context (events : string * pyval -> list event).


Lemma entries_error_elem (items : list (string * pyval)) (ex : exn) :
  entries_error outcome items = Some ex ->
  exists before entry after,
    items = before ++ entry :: after
    /\ outcome entry = inl ex
    /\ Forall (fun entry' => exists scores, outcome entry' = inr scores) before
    /\ entries_events outcome events items
       = concat (map events before) ++ events entry.
Proof.
  induction items as [|entry' rest IH]; intros Herr; [done|].
  simpl in *. destruct (outcome entry') as [ex'|scores] eqn:Ho.
  - injection Herr as ->. exists [], entry', rest. simpl.
    rewrite app_nil_r. repeat split; try done.
  - destruct (IH Herr) as (before & entry & after & -> & Hex & Hall & Hev).
    exists (entry' :: before), entry, after. simpl.
    rewrite Hev, app_assoc. repeat split; try done.
    constructor; [|done]. by exists scores.
Qed.

Lemma entries_events_all (items : list (string * pyval)) :
  entries_error outcome items = None ->
  entries_events outcome events items = concat (map events items).
Proof.
  induction items as [|entry rest IH]; intros Herr; [done|].
  simpl in *. destruct (outcome entry); [done|]. by rewrite IH.
Qed.

End Entries_facts.

(** *** The [dict] of references a loop builds *)

Lemma record_refs_update (d : pydict) (next : loc) (subjects : list string) :
  record_refs d next subjects
  = Dict.update d (zip subjects (map VDict (seq next (length subjects)))).
Proof.
  revert d next. induction subjects as [|s rest IH]; intros d next; [done|].
  simpl. by rewrite IH.
Qed.


Lemma record_refs_keys_NoDup (d : pydict) (next : loc)
    (subjects : list string) :
  NoDup (Dict.keys d) -> NoDup (Dict.keys (record_refs d next subjects)).
Proof. rewrite record_refs_update. apply dict_keys_update_NoDup. Qed.










(** * The claims about [evaluate_model] *)


(** * The scripts from the test files on *)

Lemma subjects_of_elem (test_files tokens : list string) (s : string) :
  subjects_of test_files = inr tokens ->
  s ∈ tokens <-> exists f, f ∈ test_files /\ subject_of f = Some s.
Proof.
  unfold subjects_of. revert tokens.
  induction test_files as [|f rest IH]; intros tokens; simpl.
  - intros [= <-]. rewrite elem_of_nil. split; [done|].
    intros (f & Hf & _). by apply elem_of_nil in Hf.
  - destruct (subject_of f) as [s'|] eqn:Hf; [|done].
    destruct (sequence _) as [|tokens'] eqn:Hseq; [done|].
    intros [= <-]. rewrite elem_of_cons, (IH tokens' eq_refl). split.
    + intros [->|(f' & Hin & Hs)].
      * exists f. split; [apply elem_of_cons; by left|done].
      * exists f'. split; [apply elem_of_cons; by right|done].
    + intros (f' & [->|Hin]%elem_of_cons & Hs).
      * left. congruence.
      * right. by exists f'.
Qed.

Lemma list_set_elem (tokens : list string) (s : string) :
  s ∈ list_set tokens <-> s ∈ tokens.
Proof. unfold list_set. by rewrite elem_of_elements, elem_of_list_to_set. Qed.

Lemma list_set_NoDup (tokens : list string) : NoDup (list_set tokens).
Proof. unfold list_set. apply NoDup_elements. Qed.

Lemma list_set_nil : list_set [] = [].
Proof. unfold list_set. simpl. apply elements_empty. Qed.

(** The loop that fills [datasets_test]: one dataset per subject *)
Lemma for_each_datasets (mk : string -> Dataset) (t : loc)
    (subjects : list string) :
  forall st d, heap st !! t = Some d ->
  for_each subjects
    (fun sub => ds ← make_dataset (mk sub); dict_setitem t sub (VDataset ds)) st
  = (inr tt,
     {| heap := <[t := Dict.update d
                         (map (fun sub => (sub, VDataset (mk sub))) subjects)]>
                  (heap st);
        trace := trace st
                 ++ map (fun sub => EvCreateDataset (mk sub)) subjects |}).
Proof.
  induction subjects as [|sub rest IH]; intros st d Hd.
  - simpl. rewrite list_insert_id by done.
    unfold mret, M_ret. by rewrite state_eta.
  - pose proof (lookup_lt_Some _ _ _ Hd) as Hlt.
    simpl. rewrite run_bind. unfold make_dataset at 1. run_steps.
    rewrite Hd. run_steps.
    rewrite (IH _ (Dict.set d sub (VDataset (mk sub)))); simpl.
    + by rewrite list_insert_insert_eq, <- app_assoc.
    + by apply list_lookup_insert_eq.
Qed.

Lemma dict_keys_of_pairs_graph (g : string -> pyval) (subjects : list string) :
  NoDup subjects ->
  Dict.of_pairs (map (fun sub => (sub, g sub)) subjects)
  = map (fun sub => (sub, g sub)) subjects.
Proof.
  unfold Dict.of_pairs.
  induction subjects as [|sub rest IH] using rev_ind; intros Hnd; [done|].
  apply NoDup_app in Hnd as (Hrest & Hdisj & _).
  rewrite map_app. simpl. rewrite dict_update_snoc, IH by done.
  assert (Hnin : sub ∉ map fst (map (fun sub => (sub, g sub)) rest)).
  { rewrite map_map. simpl. rewrite map_id. intros Hin.
    apply (Hdisj sub Hin). by apply list_elem_of_singleton. }
  clear IH Hdisj Hrest.
  induction (map (fun sub => (sub, g sub)) rest) as [|[k v] d IH]; [done|].
  simpl in *. apply not_elem_of_cons in Hnin as [Hne Hnin].
  apply String.eqb_neq in Hne. rewrite String.eqb_sym, Hne.
  by rewrite IH.
Qed.

(** [json.dump] of a [dict]: the members of the document are the keys of
    the [dict], in their order. *)
Lemma sequence_members {A : Type} (f : pyval -> exn + A) (d : pydict)
    (members : list (string * A)) :
  sequence (map (fun kv => match f (snd kv) with
                           | inl e => inl e
                           | inr j => inr (fst kv, j)
                           end) d) = inr members ->
  map fst members = map fst d.
Proof.
  revert members. induction d as [|[k v] d IH]; intros members; simpl.
  - by intros [= <-].
  - destruct (f v) as [|j]; [done|]. simpl.
    destruct (sequence _) as [|members']; [done|].
    intros [= <-]. simpl. by rewrite (IH members').
Qed.

Lemma to_json_dict (h : list pydict) (depth : nat) (l : loc) (d : pydict)
    (doc : json) :
  h !! l = Some d ->
  to_json h depth (VDict l) = inr doc ->
  exists members, doc = JObj members /\ map fst members = Dict.keys d.
Proof.
  intros Hl. destruct depth as [|depth]; [done|]. simpl. rewrite Hl.
  destruct (sequence _) as [|members] eqn:Hseq; [done|].
  intros [= <-]. exists members. split; [done|].
  by apply sequence_members in Hseq.
Qed.

(** The last two statements of the scripts *)
Lemma save_results_run (env : Env) (v : pyval) (path message : string)
    (st : State) :
  (json_dump env v path ;; logging_info message) st
  = match env_open_w env path with
    | Some ex => (inl ex, st)
    | None =>
        match to_json (heap st) (S (length (heap st))) v with
        | inl ex =>
            (inl ex, {| heap := heap st;
                        trace := trace st ++ [EvOpenWrite path] |})
        | inr doc =>
            (inr tt,
             {| heap := heap st;
                trace := trace st
                         ++ [EvOpenWrite path;
                             EvWrite path (json_text (env_float_repr env)
                                             (env_json_str env) doc);
                             EvLog message] |})
        end
    end.
Proof.
  unfold json_dump. destruct (env_open_w env path) as [ex|]; [done|].
  run_steps. destruct (to_json _ _ v) as [ex|doc]; [done|].
  run_steps. by rewrite <- !app_assoc.
Qed.

Lemma run_ret {A : Type} (a : A) (st : State) : (mret a : M A) st = (inr a, st).
Proof. reflexivity. Qed.

Lemma run_lift {A : Type} (r : exn + A) (st : State) : lift r st = (r, st).
Proof. reflexivity. Qed.

Lemma run_new_dict (d : pydict) (st : State) :
  new_dict d st
  = (inr (length (heap st)),
     {| heap := heap st ++ [d]; trace := trace st |}).
Proof. reflexivity. Qed.

(** One step of a run whose first statement is described by [lem] *)
Ltac run_with lem := rewrite run_bind, lem; cbv beta iota.

Lemma task1_split_files_run (env : Env) (data_folder split : string)
    (st : State) :
  Task1.split_files env data_folder split st
  = (inr (select_features Task1.features
            (Glob.glob (env_listdir env)
               (os_path.join data_folder [split +:+ "_-_*"]))),
     {| heap := heap st;
        trace := trace st
                 ++ [EvGlob (os_path.join data_folder [split +:+ "_-_*"])] |}).
Proof. reflexivity. Qed.

Lemma task2_split_files_run (env : Env) (data_folder split : string)
    (st : State) :
  Task2.split_files env data_folder split st
  = (inr (select_features Task2.features
            (Glob.glob (env_listdir env)
               (os_path.join data_folder [split; split +:+ "_-_*"]))),
     {| heap := heap st;
        trace := trace st
                 ++ [EvGlob (os_path.join data_folder
                               [split; split +:+ "_-_*"])] |}).
Proof. reflexivity. Qed.

Lemma task1_datasets_of_subjects_run (test_files : list string) (st : State) :
  Task1.datasets_of_subjects test_files st
  = match subjects_of test_files with
    | inl ex => (inl ex, st)
    | inr tokens =>
        (inr (length (heap st)),
         {| heap := heap st
                    ++ [map (fun sub =>
                               (sub, VDataset
                                       (Task1.dataset_of
                                          (files_of_subject test_files sub) 1)))
                            (list_set tokens)];
            trace := trace st
                     ++ map (fun sub =>
                               EvCreateDataset
                                 (Task1.dataset_of
                                    (files_of_subject test_files sub) 1))
                            (list_set tokens) |})
    end.
Proof.
  unfold Task1.datasets_of_subjects. run_with @run_lift.
  destruct (subjects_of test_files) as [ex|tokens]; [done|].
  run_with run_new_dict.
  rewrite run_bind.
  rewrite (for_each_datasets
             (fun sub => Task1.dataset_of (files_of_subject test_files sub) 1)
             (length (heap st)) (list_set tokens) _ []);
    [|by apply list_lookup_middle].
  cbv beta iota. rewrite run_ret. cbn [heap trace].
  rewrite (insert_app_r_alt _ _ (length (heap st))) by done.
  rewrite Nat.sub_diag. simpl.
  change (Dict.update [] ?p) with (Dict.of_pairs p).
  by rewrite (dict_keys_of_pairs_graph (fun sub => VDataset _))
    by apply list_set_NoDup.
Qed.

Lemma task2_datasets_of_subjects_run (test_files : list string) (st : State) :
  Task2.datasets_of_subjects test_files st
  = match subjects_of test_files with
    | inl ex => (inl ex, st)
    | inr tokens =>
        (inr (length (heap st)),
         {| heap := heap st
                    ++ [map (fun sub =>
                               (sub, VDataset
                                       (Task2.dataset_of
                                          (files_of_subject test_files sub) 64)))
                            (list_set tokens)];
            trace := trace st
                     ++ map (fun sub =>
                               EvCreateDataset
                                 (Task2.dataset_of
                                    (files_of_subject test_files sub) 64))
                            (list_set tokens) |})
    end.
Proof.
  unfold Task2.datasets_of_subjects. run_with @run_lift.
  destruct (subjects_of test_files) as [ex|tokens]; [done|].
  run_with run_new_dict.
  rewrite run_bind.
  rewrite (for_each_datasets
             (fun sub => Task2.dataset_of (files_of_subject test_files sub) 64)
             (length (heap st)) (list_set tokens) _ []);
    [|by apply list_lookup_middle].
  cbv beta iota. rewrite run_ret. cbn [heap trace].
  rewrite (insert_app_r_alt _ _ (length (heap st))) by done.
  rewrite Nat.sub_diag. simpl.
  change (Dict.update [] ?p) with (Dict.of_pairs p).
  by rewrite (dict_keys_of_pairs_graph (fun sub => VDataset _))
    by apply list_set_NoDup.
Qed.

Lemma task1_test_files_run (env : Env) (data_folder : string) (st : State) :
  Task1.split_files env data_folder "test" st
  = (inr (Task1.test_files_in env data_folder),
     {| heap := heap st;
        trace := trace st
                 ++ [EvGlob (os_path.join data_folder ["test_-_*"])] |}).
Proof. reflexivity. Qed.

Lemma task2_test_files_run (env : Env) (data_folder : string) (st : State) :
  Task2.split_files env data_folder "test" st
  = (inr (Task2.test_files_in env data_folder),
     {| heap := heap st;
        trace := trace st
                 ++ [EvGlob (os_path.join data_folder
                               ["test"; "test_-_*"])] |}).
Proof. reflexivity. Qed.

Lemma task1_evaluate_and_save_run (env : Env) (model : Model)
    (data_folder : string) (st : State) :
  let files := Task1.test_files_in env data_folder in
  let glob_ev := EvGlob (os_path.join data_folder ["test_-_*"]) in
  match subjects_of files with
  | inl ex =>
      Task1.evaluate_and_save env model data_folder st
      = (inl ex, {| heap := heap st; trace := trace st ++ [glob_ev] |})
  | inr tokens =>
      let subjects := list_set tokens in
      let items := Task1.datasets_test_entries files subjects in
      let evs :=
        glob_ev
        :: map (fun sub => EvCreateDataset (Task1.subject_dataset files sub))
               subjects
        ++ entries_events (Task1.entry_scores model)
             (Task1.entry_events model) items in
      match entries_error (Task1.entry_scores model) items with
      | Some ex =>
          exists h',
            Task1.evaluate_and_save env model data_folder st
            = (inl ex, {| heap := h'; trace := trace st ++ evs |})
      | None =>
          Task1.evaluate_and_save env model data_folder st
          = (json_dump env (VDict (S (length (heap st))))
               (Task1.results_path env) ;;
             logging_info ("Results saved at " +:+ Task1.results_path env))
              {| heap := heap st
                         ++ items
                         :: record_refs [] (S (S (length (heap st)))) subjects
                         :: entries_dicts (Task1.entry_scores model) items;
                 trace := trace st ++ evs |}
      end
  end.
Proof.
  intros files glob_ev.
  unfold Task1.evaluate_and_save.
  run_with task1_test_files_run. fold files glob_ev.
  run_with task1_datasets_of_subjects_run. cbn [heap trace].
  destruct (subjects_of files) as [ex|tokens]; [done|].
  cbv zeta. set (subjects := list_set tokens).
  change (map (fun sub => (sub, VDataset (Task1.dataset_of _ 1))) subjects)
    with (Task1.datasets_test_entries files subjects).
  change (fun sub => EvCreateDataset (Task1.dataset_of _ 1))
    with (fun sub => EvCreateDataset (Task1.subject_dataset files sub)).
  set (items := Task1.datasets_test_entries files subjects).
  set (evs := glob_ev :: _ ++ entries_events _ _ items).
  set (st2 := {| heap := heap st ++ [items]; trace := _ |}).
  destruct (task1_evaluate_model_run model (length (heap st)) st2 items)
    as (h' & Hrun & _ & Hok).
  { by apply list_lookup_middle. }
  rewrite run_bind, Hrun.
  assert (Htrace : trace st2
                   ++ entries_events (Task1.entry_scores model)
                        (Task1.entry_events model) items
                   = trace st ++ evs).
  { unfold st2, evs. simpl. by rewrite <- !app_assoc. }
  rewrite Htrace.
  destruct (entries_error _ items) as [ex|].
  - by exists h'.
  - rewrite (Hok eq_refl). unfold st2. simpl.
    rewrite length_app. simpl.
    replace (length (heap st) + 1) with (S (length (heap st))) by lia.
    rewrite <- app_assoc. simpl.
    assert (map fst items = subjects) as ->; [|done].
    unfold items, Task1.datasets_test_entries.
    rewrite map_map. simpl. apply map_id.
Qed.

Lemma task2_evaluate_and_save_run (env : Env) (model : Model)
    (data_folder : string) (st : State) :
  let files := Task2.test_files_in env data_folder in
  let glob_ev := EvGlob (os_path.join data_folder ["test"; "test_-_*"]) in
  match subjects_of files with
  | inl ex =>
      Task2.evaluate_and_save env model data_folder st
      = (inl ex, {| heap := heap st; trace := trace st ++ [glob_ev] |})
  | inr tokens =>
      let subjects := list_set tokens in
      let items := Task2.datasets_test_entries files subjects in
      let evs :=
        glob_ev
        :: map (fun sub => EvCreateDataset (Task2.subject_dataset files sub))
               subjects
        ++ entries_events (Task2.entry_scores env model)
             (Task2.entry_events model) items in
      match entries_error (Task2.entry_scores env model) items with
      | Some ex =>
          exists h',
            Task2.evaluate_and_save env model data_folder st
            = (inl ex, {| heap := h'; trace := trace st ++ evs |})
      | None =>
          Task2.evaluate_and_save env model data_folder st
          = (json_dump env (VDict (S (length (heap st))))
               (Task2.results_path env) ;;
             logging_info ("Results saved at " +:+ Task2.results_path env))
              {| heap := heap st
                         ++ items
                         :: record_refs [] (S (S (length (heap st)))) subjects
                         :: entries_dicts (Task2.entry_scores env model) items;
                 trace := trace st ++ evs |}
      end
  end.
Proof.
  intros files glob_ev.
  unfold Task2.evaluate_and_save.
  run_with task2_test_files_run. fold files glob_ev.
  run_with task2_datasets_of_subjects_run. cbn [heap trace].
  destruct (subjects_of files) as [ex|tokens]; [done|].
  cbv zeta. set (subjects := list_set tokens).
  change (map (fun sub => (sub, VDataset (Task2.dataset_of _ 64))) subjects)
    with (Task2.datasets_test_entries files subjects).
  change (fun sub => EvCreateDataset (Task2.dataset_of _ 64))
    with (fun sub => EvCreateDataset (Task2.subject_dataset files sub)).
  set (items := Task2.datasets_test_entries files subjects).
  set (evs := glob_ev :: _ ++ entries_events _ _ items).
  set (st2 := {| heap := heap st ++ [items]; trace := _ |}).
  destruct (task2_evaluate_model_run env model (length (heap st)) st2 items)
    as (h' & Hrun & _ & Hok).
  { by apply list_lookup_middle. }
  rewrite run_bind, Hrun.
  assert (Htrace : trace st2
                   ++ entries_events (Task2.entry_scores env model)
                        (Task2.entry_events model) items
                   = trace st ++ evs).
  { unfold st2, evs. simpl. by rewrite <- !app_assoc. }
  rewrite Htrace.
  destruct (entries_error _ items) as [ex|].
  - by exists h'.
  - rewrite (Hok eq_refl). unfold st2. simpl.
    rewrite length_app. simpl.
    replace (length (heap st) + 1) with (S (length (heap st))) by lia.
    rewrite <- app_assoc. simpl.
    assert (map fst items = subjects) as ->; [|done].
    unfold items, Task2.datasets_test_entries.
    rewrite map_map. simpl. apply map_id.
Qed.

(** C10. [evaluate_model] does not mutate its [test_dict] argument:
    whether the call returns or raises, [test_dict] holds the same keys
    with the same datasets after it, and so does every object that
    existed before the call. *)
Theorem evaluate_model_keeps_test_dict :
  (forall (model : Model) (t : loc) (st : State)
          (items : list (string * pyval)),
      heap st !! t = Some items ->
      heap (snd (Task1.evaluate_model model t st)) !! t = Some items
      /\ forall l d, heap st !! l = Some d ->
           heap (snd (Task1.evaluate_model model t st)) !! l = Some d)
  /\ (forall (env : Env) (model : Model) (t : loc) (st : State)
             (items : list (string * pyval)),
      heap st !! t = Some items ->
      heap (snd (Task2.evaluate_model env model t st)) !! t = Some items
      /\ forall l d, heap st !! l = Some d ->
           heap (snd (Task2.evaluate_model env model t st)) !! l = Some d).
Proof.
  split.
  - intros model t st items Ht.
    assert (Hframe : forall l d, heap st !! l = Some d ->
              heap (snd (Task1.evaluate_model model t st)) !! l = Some d).
    { intros l d Hl. rewrite <- Hl.
      apply (evaluate_model_frame (Task1.entry_scores model)
               (Task1.entry_events model) (Task1.evaluate_subject model)
               (task1_evaluate_subject_pass model)).
      by eapply lookup_lt_Some. }
    split; [by apply Hframe|done].
  - intros env model t st items Ht.
    assert (Hframe : forall l d, heap st !! l = Some d ->
              heap (snd (Task2.evaluate_model env model t st)) !! l = Some d).
    { intros l d Hl. rewrite <- Hl.
      apply (evaluate_model_frame (Task2.entry_scores env model)
               (Task2.entry_events model) (Task2.evaluate_subject env model)
               (task2_evaluate_subject_pass env model)).
      by eapply lookup_lt_Some. }
    split; [by apply Hframe|done].
Qed.

(** C9. On an empty [test_dict], [evaluate_model] returns a new, empty
    [dict] and the trace does not change: the model is not evaluated.
    So when no test file matches the naming convention (and the results
    file can be opened), the scripts look for the test files, evaluate
    nothing and write the text of the empty object to [eval.json]. *)
Theorem empty_test_set_gives_empty_results :
  (forall (model : Model) (t : loc) (st : State),
      heap st !! t = Some [] ->
      Task1.evaluate_model model t st
      = (inr (length (heap st)),
         {| heap := heap st ++ [[]]; trace := trace st |}))
  /\ (forall (env : Env) (model : Model) (t : loc) (st : State),
      heap st !! t = Some [] ->
      Task2.evaluate_model env model t st
      = (inr (length (heap st)),
         {| heap := heap st ++ [[]]; trace := trace st |}))
  /\ (forall (env : Env) (model : Model) (data_folder : string) (st : State),
      Task1.test_files_in env data_folder = [] ->
      env_open_w env (Task1.results_path env) = None ->
      Task1.evaluate_and_save env model data_folder st
      = (inr tt,
         {| heap := heap st ++ [[]; []];
            trace := trace st
                     ++ [EvGlob (os_path.join data_folder ["test_-_*"]);
                         EvOpenWrite (Task1.results_path env);
                         EvWrite (Task1.results_path env) "{}";
                         EvLog ("Results saved at "
                                +:+ Task1.results_path env)] |}))
  /\ (forall (env : Env) (model : Model) (data_folder : string) (st : State),
      Task2.test_files_in env data_folder = [] ->
      env_open_w env (Task2.results_path env) = None ->
      Task2.evaluate_and_save env model data_folder st
      = (inr tt,
         {| heap := heap st ++ [[]; []];
            trace := trace st
                     ++ [EvGlob (os_path.join data_folder
                                   ["test"; "test_-_*"]);
                         EvOpenWrite (Task2.results_path env);
                         EvWrite (Task2.results_path env) "{}";
                         EvLog ("Results saved at "
                                +:+ Task2.results_path env)] |})).
Proof.
  split; [|split; [|split]].
  - intros model t st Ht.
    destruct (task1_evaluate_model_run model t st [] Ht)
      as (h' & -> & _ & Hok).
    simpl. by rewrite (Hok eq_refl), app_nil_r.
  - intros env model t st Ht.
    destruct (task2_evaluate_model_run env model t st [] Ht)
      as (h' & -> & _ & Hok).
    simpl. by rewrite (Hok eq_refl), app_nil_r.
  - intros env model data_folder st Hfiles Hopen.
    pose proof (task1_evaluate_and_save_run env model data_folder st) as Hrun.
    rewrite Hfiles in Hrun. simpl in Hrun. rewrite list_set_nil in Hrun.
    simpl in Hrun. rewrite Hrun, save_results_run, Hopen. simpl.
    rewrite lookup_app_r by lia.
    replace (S (length (heap st)) - length (heap st)) with 1 by lia.
    simpl. by rewrite <- app_assoc.
  - intros env model data_folder st Hfiles Hopen.
    pose proof (task2_evaluate_and_save_run env model data_folder st) as Hrun.
    rewrite Hfiles in Hrun. simpl in Hrun. rewrite list_set_nil in Hrun.
    simpl in Hrun. rewrite Hrun, save_results_run, Hopen. simpl.
    rewrite lookup_app_r by lia.
    replace (S (length (heap st)) - length (heap st)) with 1 by lia.
    simpl. by rewrite <- app_assoc.
Qed.

(** C8, as the code has it.  The scores of a subject are
    [dict(zip(metrics, results))]: the dictionary has one entry per
    distinct name among the metric names that have a result, which is
    the minimum of the two lengths when the names are distinct; a name
    that occurs twice keeps the later of its results; and a pass of the
    loop of [evaluate_model] stores this dictionary without raising,
    whatever the two lengths are. *)
Theorem scores_of_zip (names : list string) (results : list pyfloat) :
  let scores := Dict.of_pairs (zip names (map VFloat results)) in
  length scores = length (remove_dups (take (length results) names))
  /\ (NoDup names ->
      length scores = Nat.min (length names) (length results))
  /\ (forall i name x,
        names !! i = Some name -> results !! i = Some x ->
        (forall j, i < j -> j < length results -> names !! j <> Some name) ->
        Dict.get scores name = Some (VFloat x))
  /\ (forall (model : Model) (subject : string) (ds : Dataset) (e : loc)
             (st : State) (d : pydict),
        metrics_names model = names -> evaluate model ds = inr results ->
        heap st !! e = Some d ->
        Task1.evaluate_subject model e (subject, VDataset ds) st
        = (inr tt,
           {| heap := <[e := Dict.set d subject (VDict (length (heap st)))]>
                        (heap st) ++ [scores];
              trace := trace st
                       ++ [EvLog ("Scores for subject " +:+ subject +:+ ":");
                           EvEvaluate ds] |})).
Proof.
  intros scores.
  assert (Hlen : length scores
                 = length (remove_dups (take (length results) names))).
  { unfold scores. by rewrite dict_length_of_pairs, zip_keys, length_fmap. }
  split; [done|]. split; [|split].
  - intros Hnd. rewrite Hlen, remove_dups_NoDup_length.
    + rewrite length_take. lia.
    + eapply sublist_NoDup; [done|]. apply sublist_take.
  - intros i name x Hname Hx Hlast. unfold scores, Dict.of_pairs.
    rewrite (zip_split names (map VFloat results) i name (VFloat x));
      [|done|by rewrite list_lookup_fmap, Hx].
    apply dict_get_update_last.
    rewrite zip_keys. intros (j & Hj & Hlt)%elem_of_take.
    rewrite lookup_drop in Hj. rewrite length_drop, length_fmap in Hlt.
    apply (Hlast (S i + j)); [lia|lia|done].
  - intros model subject ds e st d Hnames Hev Hd.
    pose proof (task1_evaluate_subject_pass model e (subject, VDataset ds)
                  st d Hd) as Hpass.
    unfold Task1.entry_scores, Task1.entry_events in Hpass.
    cbn [fst snd] in Hpass. rewrite Hev, Hnames in Hpass. exact Hpass.
Qed.

(** * Errors *)

Section Entries_events.

Context (outcome : string * pyval -> exn + pydict).
Context (events : string * pyval -> list event).


End Entries_events.

Lemma last_app_cons {A : Type} (l1 l2 : list A) (x : A) :
  last (l1 ++ l2 ++ [x]) = Some x.
Proof. by rewrite app_assoc, last_snoc. Qed.











(** * The subjects that are evaluated *)

Lemma dict_set_fresh (d : pydict) (k : string) (v : pyval) :
  k ∉ Dict.keys d -> Dict.set d k v = d ++ [(k, v)].
Proof.
  unfold Dict.keys. induction d as [|[k' v'] d IH]; [done|].
  simpl. intros [Hne Hk]%not_elem_of_cons.
  apply String.eqb_neq in Hne. rewrite String.eqb_sym, Hne.
  by rewrite IH.
Qed.

Lemma dict_update_NoDup (pairs : list (string * pyval)) :
  NoDup (map fst pairs) -> Dict.update [] pairs = pairs.
Proof.
  induction pairs as [|[k v] pairs IH] using rev_ind; intros Hnd; [done|].
  rewrite map_app in Hnd. apply NoDup_app in Hnd as (Hnd & Hdisj & _).
  rewrite dict_update_snoc, IH by done. apply dict_set_fresh.
  intros Hin. apply (Hdisj k Hin). simpl. by apply list_elem_of_singleton.
Qed.

Lemma record_refs_keys (next : loc) (subjects : list string) :
  NoDup subjects -> Dict.keys (record_refs [] next subjects) = subjects.
Proof.
  intros Hnd.
  assert (Hkeys : map fst (zip subjects
                             (map VDict (seq next (length subjects))))
                  = subjects).
  { by rewrite zip_keys, length_fmap, length_seq, firstn_all. }
  rewrite record_refs_update, dict_update_NoDup by (by rewrite Hkeys).
  exact Hkeys.
Qed.

Lemma evaluated_app (evs1 evs2 : list event) :
  evaluated (evs1 ++ evs2) = evaluated evs1 ++ evaluated evs2.
Proof. apply omap_app. Qed.

Lemma evaluated_created (datasets : list Dataset) :
  evaluated (map EvCreateDataset datasets) = [].
Proof. by induction datasets. Qed.

Lemma task1_evaluated_entries (model : Model) (mk : string -> Dataset)
    (subjects : list string) :
  let items := map (fun sub => (sub, VDataset (mk sub))) subjects in
  entries_error (Task1.entry_scores model) items = None ->
  evaluated (entries_events (Task1.entry_scores model)
               (Task1.entry_events model) items)
  = map mk subjects.
Proof.
  induction subjects as [|sub rest IH]; [done|].
  simpl. unfold Task1.entry_scores at 1 3. simpl.
  destruct (evaluate model (mk sub)); [done|].
  intros Herr. unfold evaluated in *. simpl. f_equal. by apply IH.
Qed.

Lemma task2_evaluated_entries (env : Env) (model : Model)
    (mk : string -> Dataset) (subjects : list string) :
  let items := map (fun sub => (sub, VDataset (mk sub))) subjects in
  entries_error (Task2.entry_scores env model) items = None ->
  evaluated (entries_events (Task2.entry_scores env model)
               (Task2.entry_events model) items)
  = map mk subjects.
Proof.
  induction subjects as [|sub rest IH]; [done|].
  simpl. unfold Task2.entry_scores at 1 3, Task2.entry_events at 1. simpl.
  destruct (predict_correlations model (mk sub)); [done|].
  destruct (evaluate model (mk sub)); [done|].
  destruct (np.mean_axis0 _ _); [done|].
  intros Herr. unfold evaluated in *. simpl. f_equal. by apply IH.
Qed.

Lemma task1_evaluate_and_save_subjects (env : Env) (model : Model)
    (data_folder : string) (st st' : State) :
  Task1.evaluate_and_save env model data_folder st = (inr tt, st') ->
  let files := Task1.test_files_in env data_folder in
  exists members,
    EvWrite (Task1.results_path env)
      (json_text (env_float_repr env) (env_json_str env) (JObj members))
      ∈ new_events st st'
    /\ NoDup (map fst members)
    /\ (forall s, s ∈ map fst members
                  <-> exists f, f ∈ files /\ subject_of f = Some s)
    /\ evaluated (new_events st st')
       = map (Task1.subject_dataset files) (map fst members).
Proof.
  intros Hsave files.
  pose proof (task1_evaluate_and_save_run env model data_folder st) as Hrun.
  cbv zeta in Hrun. fold files in Hrun.
  destruct (subjects_of files) as [ex|tokens] eqn:Htok; [congruence|].
  set (subjects := list_set tokens) in *.
  set (items := Task1.datasets_test_entries files subjects) in *.
  destruct (entries_error _ items) as [ex|] eqn:Herr.
  { destruct Hrun as (h' & Hrun). congruence. }
  rewrite Hrun, save_results_run in Hsave. cbn [heap trace] in Hsave.
  destruct (env_open_w env _) as [ex|]; [done|].
  set (h2 := heap st ++ items :: _ :: _) in *.
  destruct (to_json h2 _ _) as [ex|doc] eqn:Hdoc; [done|].
  injection Hsave as <-.
  assert (Hl : h2 !! S (length (heap st))
               = Some (record_refs [] (S (S (length (heap st)))) subjects)).
  { unfold h2. rewrite lookup_app_r by lia.
    by replace (S (length (heap st)) - length (heap st)) with 1 by lia. }
  destruct (to_json_dict _ _ _ _ _ Hl Hdoc) as (members & -> & Hkeys).
  rewrite record_refs_keys in Hkeys by apply list_set_NoDup.
  exists members. rewrite Hkeys, <- app_assoc, new_events_app.
  split; [|split; [apply list_set_NoDup|split]].
  - apply elem_of_app; right. apply elem_of_cons; right.
    apply elem_of_cons; by left.
  - intros s. unfold subjects.
    by rewrite list_set_elem, (subjects_of_elem files tokens).
  - rewrite evaluated_app.
    change (evaluated (EvGlob ?p :: ?l)) with (evaluated l).
    rewrite evaluated_app, <- (map_map _ EvCreateDataset), evaluated_created.
    change (evaluated [_; _; _]) with (@nil Dataset).
    rewrite app_nil_r. simpl.
    by apply (task1_evaluated_entries model (Task1.subject_dataset files)).
Qed.

Lemma task2_evaluate_and_save_subjects (env : Env) (model : Model)
    (data_folder : string) (st st' : State) :
  Task2.evaluate_and_save env model data_folder st = (inr tt, st') ->
  let files := Task2.test_files_in env data_folder in
  exists members,
    EvWrite (Task2.results_path env)
      (json_text (env_float_repr env) (env_json_str env) (JObj members))
      ∈ new_events st st'
    /\ NoDup (map fst members)
    /\ (forall s, s ∈ map fst members
                  <-> exists f, f ∈ files /\ subject_of f = Some s)
    /\ evaluated (new_events st st')
       = map (Task2.subject_dataset files) (map fst members).
Proof.
  intros Hsave files.
  pose proof (task2_evaluate_and_save_run env model data_folder st) as Hrun.
  cbv zeta in Hrun. fold files in Hrun.
  destruct (subjects_of files) as [ex|tokens] eqn:Htok; [congruence|].
  set (subjects := list_set tokens) in *.
  set (items := Task2.datasets_test_entries files subjects) in *.
  destruct (entries_error _ items) as [ex|] eqn:Herr.
  { destruct Hrun as (h' & Hrun). congruence. }
  rewrite Hrun, save_results_run in Hsave. cbn [heap trace] in Hsave.
  destruct (env_open_w env _) as [ex|]; [done|].
  set (h2 := heap st ++ items :: _ :: _) in *.
  destruct (to_json h2 _ _) as [ex|doc] eqn:Hdoc; [done|].
  injection Hsave as <-.
  assert (Hl : h2 !! S (length (heap st))
               = Some (record_refs [] (S (S (length (heap st)))) subjects)).
  { unfold h2. rewrite lookup_app_r by lia.
    by replace (S (length (heap st)) - length (heap st)) with 1 by lia. }
  destruct (to_json_dict _ _ _ _ _ Hl Hdoc) as (members & -> & Hkeys).
  rewrite record_refs_keys in Hkeys by apply list_set_NoDup.
  exists members. rewrite Hkeys, <- app_assoc, new_events_app.
  split; [|split; [apply list_set_NoDup|split]].
  - apply elem_of_app; right. apply elem_of_cons; right.
    apply elem_of_cons; by left.
  - intros s. unfold subjects.
    by rewrite list_set_elem, (subjects_of_elem files tokens).
  - rewrite evaluated_app.
    change (evaluated (EvGlob ?p :: ?l)) with (evaluated l).
    rewrite evaluated_app, <- (map_map _ EvCreateDataset), evaluated_created.
    change (evaluated [_; _; _]) with (@nil Dataset).
    rewrite app_nil_r. simpl.
    by apply (task2_evaluated_entries env model (Task2.subject_dataset files)).
Qed.

(** C4. The subjects evaluated, and the keys written to [eval.json], are
    exactly the distinct second ["_-_"]-separated tokens of the basenames
    of the test files.  When the script ends normally, the document it
    wrote is an object whose keys are without repetition, a subject is a
    key exactly when it is the second token of some test file, and the
    model was evaluated once per key, on the dataset of that subject, in
    the order of the keys. *)
Theorem subjects_evaluated_once :
  (forall (env : Env) (model : Model) (data_folder : string) (st st' : State),
      Task1.evaluate_and_save env model data_folder st = (inr tt, st') ->
      let files := Task1.test_files_in env data_folder in
      exists members,
        EvWrite (Task1.results_path env)
          (json_text (env_float_repr env) (env_json_str env) (JObj members))
          ∈ new_events st st'
        /\ NoDup (map fst members)
        /\ (forall s, s ∈ map fst members
                      <-> exists f, f ∈ files /\ subject_of f = Some s)
        /\ evaluated (new_events st st')
           = map (Task1.subject_dataset files) (map fst members))
  /\ (forall (env : Env) (model : Model) (data_folder : string)
             (st st' : State),
      Task2.evaluate_and_save env model data_folder st = (inr tt, st') ->
      let files := Task2.test_files_in env data_folder in
      exists members,
        EvWrite (Task2.results_path env)
          (json_text (env_float_repr env) (env_json_str env) (JObj members))
          ∈ new_events st st'
        /\ NoDup (map fst members)
        /\ (forall s, s ∈ map fst members
                      <-> exists f, f ∈ files /\ subject_of f = Some s)
        /\ evaluated (new_events st st')
           = map (Task2.subject_dataset files) (map fst members)).
Proof.
  split.
  - apply task1_evaluate_and_save_subjects.
  - apply task2_evaluate_and_save_subjects.
Qed.

(** * The evaluate-only mode *)



















(** * Command-line arguments *)

(** C7. Neither script takes command-line flags: two invocations that
    differ in the arguments only, that is in two worlds that are the same
    once the arguments are left out, run alike: same result, same objects
    and same events, for either value of [only_evaluate]. *)
Theorem main_ignores_argv (env1 env2 : Env) (only_evaluate : bool)
    (st : State) :
  with_argv env1 [] = with_argv env2 [] ->
  Task1.main_with env1 only_evaluate st = Task1.main_with env2 only_evaluate st
  /\ Task2.main_with env1 only_evaluate st
     = Task2.main_with env2 only_evaluate st
  /\ Task1.main env1 st = Task1.main env2 st
  /\ Task2.main env1 st = Task2.main env2 st.
Proof.
  intros Hsame.
  assert (H1 : forall env, Task1.main_with env only_evaluate st
                           = Task1.main_with (with_argv env []) only_evaluate st)
    by reflexivity.
  assert (H2 : forall env, Task2.main_with env only_evaluate st
                           = Task2.main_with (with_argv env []) only_evaluate st)
    by reflexivity.
  assert (H3 : forall env, Task1.main env st = Task1.main (with_argv env []) st)
    by reflexivity.
  assert (H4 : forall env, Task2.main env st = Task2.main (with_argv env []) st)
    by reflexivity.
  rewrite (H1 env1), (H1 env2), (H2 env1), (H2 env2), (H3 env1), (H3 env2),
    (H4 env1), (H4 env2), Hsame.
  done.
Qed.

(** * The files of a subject *)

Lemma contains_prefix (t s : string) :
  String.prefix t s = true -> Str.contains t s = true.
Proof. intros H. destruct s; cbn [Str.contains]; by rewrite H. Qed.

Lemma contains_cons (t : string) (c : ascii) (s : string) :
  Str.contains t s = true -> Str.contains t (String c s) = true.
Proof. intros H. cbn [Str.contains]. rewrite H. apply orb_true_r. Qed.

Lemma contains_drop (t : string) (k : nat) (s : string) :
  Str.contains t (Str.drop k s) = true -> Str.contains t s = true.
Proof.
  revert s. induction k as [|k IH]; intros [|c s]; simpl; try done.
  intros H. apply (contains_cons t c s). by apply IH.
Qed.

(** Every token of [s.split(sep)] occurs in [s]. *)
Lemma split_scan_tokens (sep s : string) :
  forall skip,
    String.prefix (fst (Str.split_scan sep skip s)) (Str.drop skip s) = true
    /\ forall t, t ∈ snd (Str.split_scan sep skip s) ->
         Str.contains t s = true.
Proof.
  induction s as [|c s IH]; intros skip.
  - simpl. split; [by destruct skip|]. by intros t ?%elem_of_nil.
  - destruct skip as [|k].
    + cbn [Str.split_scan].
      destruct (String.prefix sep (String c s)).
      * destruct (IH (String.length sep - 1)) as [Hfst Hsnd].
        destruct (Str.split_scan sep (String.length sep - 1) s) as [t' ts'].
        simpl in *. split; [done|].
        intros t [->|Hin]%elem_of_cons.
        -- apply contains_cons.
           apply (contains_drop _ (String.length sep - 1)).
           by apply contains_prefix.
        -- apply contains_cons. by apply Hsnd.
      * destruct (IH 0) as [Hfst Hsnd].
        destruct (Str.split_scan sep 0 s) as [t' ts'].
        simpl in *. split.
        -- destruct (ascii_dec c c); [|done].
           destruct s; exact Hfst.
        -- intros t Hin. apply contains_cons. by apply Hsnd.
    + cbn [Str.split_scan Str.drop]. destruct (IH k) as [Hfst Hsnd].
      split; [done|]. intros t Hin. apply contains_cons. by apply Hsnd.
Qed.

Lemma subject_of_contains (f sub : string) :
  subject_of f = Some sub -> Str.contains sub (os_path.basename f) = true.
Proof.
  unfold subject_of, Str.split.
  destruct (split_scan_tokens "_-_" (os_path.basename f) 0) as [_ Hsnd].
  destruct (Str.split_scan "_-_" 0 (os_path.basename f)) as [t ts].
  simpl in *. intros Hsub. apply Hsnd. by eapply list_elem_of_lookup_2.
Qed.

(** What does hold of the files given to the dataset of a subject: no
    file of the subject is left out, and when the subject occurs in the
    basename of its own files only, the files are exactly those of the
    subject. *)
Lemma files_of_subject_complete (test_files : list string) (sub f : string) :
  f ∈ test_files -> subject_of f = Some sub ->
  f ∈ files_of_subject test_files sub.
Proof.
  intros Hin Hsub. unfold files_of_subject.
  rewrite list_elem_of_In, filter_In, <- list_elem_of_In.
  split; [done|]. by apply subject_of_contains.
Qed.

Lemma files_of_subject_exact (test_files : list string) (sub : string) :
  (forall f, f ∈ test_files ->
     Str.contains sub (os_path.basename f) = true ->
     subject_of f = Some sub) ->
  forall f, f ∈ files_of_subject test_files sub
            <-> f ∈ test_files /\ subject_of f = Some sub.
Proof.
  intros Hown f. split.
  - unfold files_of_subject.
    rewrite list_elem_of_In, filter_In, <- list_elem_of_In.
    intros [Hin Hc]. split; [done|]. by apply Hown.
  - intros [Hin Hsub]. by apply files_of_subject_complete.
Qed.

(** C1, at the input on which the scripts leave the claim.  With the
    test files of the subjects [sub-1] and [sub-10], the file of [sub-10]
    is found, its subject is [sub-10], and yet the dataset the scripts
    make for [sub-1] is built from both files: [sub-1] occurs in the
    basename of the file of [sub-10]. *)
Theorem subject_files_selected_by_substring :
  let env := Sample.world Sample.model Sample.listing_collision in
  let files1 := Task1.test_files_in env "/data/split" in
  let files2 := Task2.test_files_in env "/data/split" in
  files1 = ["/data/split/test_-_sub-1_-_eeg.npy";
            "/data/split/test_-_sub-10_-_eeg.npy"]
  /\ files2 = ["/data/split/test/test_-_sub-1_-_eeg.npy";
               "/data/split/test/test_-_sub-10_-_eeg.npy"]
  /\ subject_of "/data/split/test_-_sub-10_-_eeg.npy" = Some "sub-10"
  /\ subject_of "/data/split/test/test_-_sub-10_-_eeg.npy" = Some "sub-10"
  /\ files_of_subject files1 "sub-1" = files1
  /\ files_of_subject files2 "sub-1" = files2
  /\ (exists st', Task1.datasets_of_subjects files1 Sample.start = (inr 0, st')
        /\ exists d, heap st' !! 0 = Some d
             /\ Dict.get d "sub-1" = Some (VDataset (Task1.dataset_of files1 1)))
  /\ (exists st', Task2.datasets_of_subjects files2 Sample.start = (inr 0, st')
        /\ exists d, heap st' !! 0 = Some d
             /\ Dict.get d "sub-1"
                = Some (VDataset (Task2.dataset_of files2 64))).
Proof.
  repeat split; try reflexivity.
  - eexists. split; [vm_compute; reflexivity|].
    eexists. split; [reflexivity|]. reflexivity.
  - eexists. split; [vm_compute; reflexivity|].
    eexists. split; [reflexivity|]. reflexivity.
Qed.

(** * The theorems on the sample world *)

(** C8, as the claim states it, fails: with a metric name reported twice
    the scores of the subject have one entry, not two. *)
Lemma scores_entries_counterexample :
  let names := metrics_names Sample.model_twice in
  let results := [1; 2]%Z in
  evaluate Sample.model_twice Sample.dataset = inr results
  /\ (exists st',
        Task1.evaluate_model Sample.model_twice 0 Sample.with_test_dict
        = (inr 1, st')
        /\ heap st' !! 1 = Some [("sub-001", VDict 2)]
        /\ heap st' !! 2 = Some [("loss", VFloat 2)])
  /\ length (Dict.of_pairs (zip names (map VFloat results)))
     <> Nat.min (length names) (length results).
Proof.
  split; [reflexivity|]. split.
  - eexists. split; [vm_compute; reflexivity|]. split; reflexivity.
  - vm_compute. discriminate.
Qed.



Lemma subjects_evaluated_once_witness :
  (exists members : list (string * json),
      NoDup (map fst members)
      /\ (forall s, s ∈ map fst members
                    <-> exists f,
                          f ∈ Task1.test_files_in Sample.env "/data/split"
                          /\ subject_of f = Some s)
      /\ evaluated (new_events Sample.start
                      (snd (Task1.evaluate_and_save Sample.env Sample.model
                              "/data/split" Sample.start)))
         = map (Task1.subject_dataset
                  (Task1.test_files_in Sample.env "/data/split"))
               (map fst members))
  /\ (exists members : list (string * json),
        NoDup (map fst members)
        /\ (forall s, s ∈ map fst members
                      <-> exists f,
                            f ∈ Task2.test_files_in Sample.env "/data"
                            /\ subject_of f = Some s)
        /\ evaluated (new_events Sample.start
                        (snd (Task2.evaluate_and_save Sample.env Sample.model
                                "/data" Sample.start)))
           = map (Task2.subject_dataset
                    (Task2.test_files_in Sample.env "/data"))
                 (map fst members)).
Proof.
  split.
  - destruct (proj1 subjects_evaluated_once Sample.env Sample.model
                "/data/split" Sample.start
                (snd (Task1.evaluate_and_save Sample.env Sample.model
                        "/data/split" Sample.start)))
      as (members & Hw & Hnd & Hkeys & Hev).
    + vm_compute. reflexivity.
    + exists members. split; [exact Hnd|]. split; [exact Hkeys|exact Hev].
  - destruct (proj2 subjects_evaluated_once Sample.env Sample.model
                "/data" Sample.start
                (snd (Task2.evaluate_and_save Sample.env Sample.model
                        "/data" Sample.start)))
      as (members & Hw & Hnd & Hkeys & Hev).
    + vm_compute. reflexivity.
    + exists members. split; [exact Hnd|]. split; [exact Hkeys|exact Hev].
Defined.



Lemma main_ignores_argv_witness :
  Task1.main_with (with_argv Sample.env ["--only-evaluate"]) false Sample.start
  = Task1.main_with Sample.env false Sample.start
  /\ Task2.main_with (with_argv Sample.env ["--only-evaluate"]) false
       Sample.start
     = Task2.main_with Sample.env false Sample.start.
Proof.
  assert (Hsame : with_argv (with_argv Sample.env ["--only-evaluate"]) []
                  = with_argv Sample.env []) by reflexivity.
  destruct (main_ignores_argv (with_argv Sample.env ["--only-evaluate"])
              Sample.env false Sample.start Hsame) as (H1 & H2 & _).
  split; [exact H1|exact H2].
Defined.

Lemma scores_of_zip_witness :
  length (Dict.of_pairs (zip ["loss"; "acc"] (map VFloat [1; 2; 3]%Z))) = 2
  /\ Dict.get (Dict.of_pairs (zip ["loss"; "loss"] (map VFloat [1; 2]%Z)))
       "loss" = Some (VFloat 2)
  /\ fst (Task1.evaluate_subject Sample.model 1
            ("sub-001", VDataset Sample.dataset)
            {| heap := [[]; []]; trace := [] |}) = inr tt.
Proof.
  split; [|split].
  - destruct (scores_of_zip ["loss"; "acc"] [1; 2; 3]%Z) as (_ & Hlen & _).
    apply Hlen. apply (bool_decide_unpack _). vm_compute. exact I.
  - destruct (scores_of_zip ["loss"; "loss"] [1; 2]%Z) as (_ & _ & Hget & _).
    apply (Hget 1); [reflexivity|reflexivity|].
    intros j Hj1 Hj2. simpl in Hj2. lia.
  - destruct (scores_of_zip (metrics_names Sample.model) [1; 2]%Z)
      as (_ & _ & _ & Hpass).
    rewrite (Hpass Sample.model "sub-001" Sample.dataset 1
               {| heap := [[]; []]; trace := [] |} []);
      reflexivity.
Defined.

Lemma empty_test_set_gives_empty_results_witness :
  let empty := Sample.world Sample.model ["train_-_sub-003_-_eeg.npy"] in
  Task1.evaluate_model Sample.model 0 {| heap := [[]]; trace := [] |}
  = (inr 1, {| heap := [[]; []]; trace := [] |})
  /\ Task2.evaluate_model empty Sample.model 0 {| heap := [[]]; trace := [] |}
     = (inr 1, {| heap := [[]; []]; trace := [] |})
  /\ EvWrite (Task1.results_path empty) "{}"
       ∈ trace (snd (Task1.evaluate_and_save empty Sample.model "/data/split"
                       Sample.start))
  /\ EvWrite (Task2.results_path empty) "{}"
       ∈ trace (snd (Task2.evaluate_and_save empty Sample.model "/data"
                       Sample.start)).
Proof.
  intros empty.
  destruct empty_test_set_gives_empty_results as (H1 & H2 & H3 & H4).
  split; [|split; [|split]].
  - apply (H1 Sample.model 0 {| heap := [[]]; trace := [] |}). reflexivity.
  - apply (H2 empty Sample.model 0 {| heap := [[]]; trace := [] |}).
    reflexivity.
  - rewrite (H3 empty Sample.model "/data/split" Sample.start);
      [|reflexivity|reflexivity].
    apply (list_elem_of_lookup_2 _ 2). reflexivity.
  - rewrite (H4 empty Sample.model "/data" Sample.start);
      [|reflexivity|reflexivity].
    apply (list_elem_of_lookup_2 _ 2). reflexivity.
Defined.

Lemma evaluate_model_keeps_test_dict_witness :
  heap (snd (Task1.evaluate_model Sample.model 0 Sample.with_test_dict)) !! 0
  = Some [("sub-001", VDataset Sample.dataset)]
  /\ heap (snd (Task2.evaluate_model Sample.env Sample.model_failing 0
                  Sample.with_test_dict)) !! 0
     = Some [("sub-001", VDataset Sample.dataset)].
Proof.
  destruct evaluate_model_keeps_test_dict as [H1 H2].
  split.
  - apply (H1 Sample.model 0 Sample.with_test_dict). reflexivity.
  - apply (H2 Sample.env Sample.model_failing 0 Sample.with_test_dict).
    reflexivity.
Defined.
